(** * Globus Flows tutorial notebooks: a shallow embedding

    The repository holds two Jupyter notebooks that drive the Globus Flows
    service: [Automation_Using_Globus_Flows.ipynb] (module [Main] below) and
    a variant of it (module [Variant]).  Each notebook is a straight
    sequence of cells; the only loop is the status poll that follows
    [run_flow].

    The Python values the notebooks handle are of JSON shape and are
    modelled by the type [value].  A cell is a computation in the monad [M]:
    it returns, raises a Python exception, or is still looping when its fuel
    runs out, and it records the events it performs (sleeps, remote calls,
    printed lines, prompts) in order.  Everything outside the notebooks' own
    code (the process environment, library functions, the remote services)
    is a field of [host]. *)

From Stdlib Require Import ZArith Ascii String.
From stdpp Require Import base option list strings gmap.

Set Warnings "-register-all".
Open Scope string_scope.
Open Scope list_scope.

(** ** Python values *)

(** Dictionary keys: the hashable scalars.  [True] and [1] are the same key
    in Python, so booleans are keyed as integers (see [hash_key]). *)
Inductive key : Type :=
| KNone
| KInt (n : Z)
| KStr (s : string).

Coercion KStr : string >-> key.

Definition key_eqb (a b : key) : bool :=
  match a, b with
  | KNone, KNone => true
  | KInt m, KInt n => Z.eqb m n
  | KStr s, KStr t => String.eqb s t
  | _, _ => false
  end.

(** A [dict] keeps its keys in insertion order, so [VDict] is an association
    list; numbers are integers, no notebook inspects a float. *)
Inductive value : Type :=
| VNone
| VBool (b : bool)
| VInt (n : Z)
| VStr (s : string)
| VList (xs : list value)
| VDict (kvs : list (key * value)).

(** The exceptions that reach the notebooks. *)
Inductive exn : Type :=
| KeyError (k : key)
| TypeError (what : string)
| LibraryError (what : string).

Inductive result (A : Type) : Type :=
| Ok (a : A)
| Err (e : exn).
Arguments Ok {A} a.
Arguments Err {A} e.

(** The key a value hashes to; lists and dicts are unhashable. *)
Definition hash_key (v : value) : result key :=
  match v with
  | VNone => Ok KNone
  | VBool b => Ok (KInt (if b then 1 else 0))
  | VInt n => Ok (KInt n)
  | VStr s => Ok (KStr s)
  | VList _ | VDict _ => Err (TypeError "unhashable type")
  end.

(** The binding of [k] in a dict's items. *)
Fixpoint dict_get (k : key) (kvs : list (key * value)) : option value :=
  match kvs with
  | [] => None
  | (k', v) :: rest => if key_eqb k k' then Some v else dict_get k rest
  end.

(** [d[k] = v]: overwrite in place, or append a new key. *)
Fixpoint dict_set (k : key) (v : value) (kvs : list (key * value)) : list (key * value) :=
  match kvs with
  | [] => [(k, v)]
  | (k', v') :: rest =>
      if key_eqb k k' then (k', v) :: rest else (k', v') :: dict_set k v rest
  end.

(** [obj[k]]: [KeyError] when a dict lacks the key, [TypeError] when [obj]
    is not a dict (no notebook subscripts a list or a string). *)
Definition getitem (obj : value) (k : key) : result value :=
  match obj with
  | VDict kvs =>
      match dict_get k kvs with
      | Some v => Ok v
      | None => Err (KeyError k)
      end
  | _ => Err (TypeError "object is not subscriptable")
  end.

(** [obj[k1][k2]...]: subscripts applied left to right. *)
Fixpoint getpath (obj : value) (ks : list key) : result value :=
  match ks with
  | [] => Ok obj
  | k :: ks' =>
      match getitem obj k with
      | Ok v => getpath v ks'
      | Err e => Err e
      end
  end.

(** [obj[k]] where the subscript is itself a value. *)
Definition subscript (obj k : value) : result value :=
  match obj with
  | VDict _ =>
      match hash_key k with
      | Ok k' => getitem obj k'
      | Err e => Err e
      end
  | _ => Err (TypeError "object is not subscriptable")
  end.

(** A dict item with a string key, as a literal writes it. *)
Notation "k =: v" := (KStr k, v) (at level 70, no associativity).

(** ** Events and the cell monad *)

(** The remote operations the notebooks call through the SDK clients. *)
Inductive api : Type :=
| DeployFlow
| OAuth2UserInfo
| OAuth2ExchangeCode
| RunFlow
| FlowActionStatus
| DeleteEndpointAclRule
| GetSubmissionId
| EndpointAutoactivate
| SubmitDelete.

Inductive event : Type :=
| Sleep (secs : nat)
| Call (op : api) (args : list value) (response : result value)
| Print (line : string)
| Input (prompt : string) (answer : string).

Inductive outcome (A : Type) : Type :=
| Ret (a : A)
| Raise (e : exn)
| OutOfFuel.
Arguments Ret {A} a.
Arguments Raise {A} e.
Arguments OutOfFuel {A}.

(** A computation: how it ends and the events it performed, oldest first. *)
Definition M (A : Type) : Type := (outcome A * list event)%type.

Definition ret {A} (a : A) : M A := (Ret a, []).

Definition bind {A B} (m : M A) (k : A → M B) : M B :=
  match m with
  | (Ret a, tr) => let '(r, tr') := k a in (r, tr ++ tr')
  | (Raise e, tr) => (Raise e, tr)
  | (OutOfFuel, tr) => (OutOfFuel, tr)
  end.

Notation "'do' x <- m ; k" := (bind m (fun x => k))
  (at level 10, x name, m at level 100, k at level 200).
Notation "'do' ' p <- m ; k" := (bind m (fun x => match x with p => k end))
  (at level 10, p pattern, m at level 100, k at level 200).
Notation "'run' m ; k" := (bind m (fun _ => k))
  (at level 10, m at level 100, k at level 200).

Definition emit (e : event) : M unit := (Ret tt, [e]).
Definition raise {A} (e : exn) : M A := (Raise e, []).
Definition lift {A} (r : result A) : M A :=
  match r with
  | Ok a => ret a
  | Err e => raise e
  end.

Definition time_sleep (secs : nat) : M unit := emit (Sleep secs).
Definition print (line : string) : M unit := emit (Print line).

(** ** The host *)

Record host : Type := {
  (** [os.environ] *)
  environ : gmap string string;
  (** [base64.b64decode] and [pickle.loads], on an argument that is present *)
  b64decode : string → result string;
  pickle_loads : string → result value;
  (** [str(v)], as f-strings and [print] apply it *)
  py_str : value → string;
  (** [json.dumps(v, indent=2)] and [pprint]'s rendering *)
  json_dumps : value → string;
  pformat : value → string;
  (** [urllib.parse.urlencode] *)
  urlencode : value → string;
  (** [str(uuid.uuid4())] *)
  uuid4 : string;
  (** [oauth2_get_authorize_url()] for a client id and requested scope *)
  authorize_url : string → value → string;
  (** what the user types at the [input] prompt *)
  stdin : string;
  (** the response to the [n]-th call (from 0) of a remote operation, or
      the exception the SDK raises for it *)
  remote : api → nat → result value
}.

(** One newline, for the strings that contain [\n]. *)
Definition nl : string := String (Ascii.ascii_of_nat 10) "".

Section Notebook.
Variable h : host.

(** A remote call through an SDK client. *)
Definition call (op : api) (n : nat) (args : list value) : M value :=
  let r := remote h op n in
  run emit (Call op args r);
  lift r.

Definition input (prompt : string) : M string :=
  run emit (Input prompt (stdin h));
  ret (stdin h).

(** *** Token loading (both notebooks)

    [[
    tokens = pickle.loads(base64.b64decode(os.getenv('GLOBUS_DATA')))['tokens']
    ]]
    [os.getenv] returns [None] for an unset variable and [b64decode]
    rejects [None] with a [TypeError]. *)
Definition os_getenv (name : string) : option string := environ h !! name.

Definition b64decode_None : exn :=
  TypeError "argument should be a bytes-like object or ASCII string, not 'NoneType'".

Definition load_tokens : M value :=
  match os_getenv "GLOBUS_DATA" with
  | None => raise b64decode_None
  | Some data =>
      do raw <- lift (b64decode h data);
      do bundle <- lift (pickle_loads h raw);
      lift (getitem bundle "tokens")
  end.

(** [globus_sdk.AccessTokenAuthorizer(access_token=t)] only stores [t]. *)
Definition AccessTokenAuthorizer (access_token : value) : value :=
  VDict ["access_token" =: access_token].

(** *** The status poll (both notebooks) *)

(** [flow_status == 'ACTIVE']: equal only to that very string. *)
Definition is_active (flow_status : value) : bool :=
  match flow_status with
  | VStr s => String.eqb s "ACTIVE"
  | _ => false
  end.

(** [[
    while flow_status == 'ACTIVE':
        time.sleep(pollInterval)
        flow_action = flows_client.flow_action_status(flow_id, flow_scope, flow_action_id)
        flow_status = flow_action['status']
        print(f'Flow status: {flow_status}')
    ]]
    [polls] counts the status queries made so far and [fuel] bounds the
    number of iterations.  The result is the [flow_action] and the
    [flow_status] the loop leaves behind. *)
Fixpoint awaitCompletion (pollInterval : nat) (flow_id flow_scope flow_action_id : value)
    (fuel polls : nat) (flow_action flow_status : value) : M (value * value) :=
  if is_active flow_status then
    match fuel with
    | 0 => (OutOfFuel, [])
    | S fuel' =>
        run time_sleep pollInterval;
        do flow_action' <- call FlowActionStatus polls [flow_id; flow_scope; flow_action_id];
        do flow_status' <- lift (getitem flow_action' "status");
        run print ("Flow status: " +:+ py_str h flow_status');
        awaitCompletion pollInterval flow_id flow_scope flow_action_id
          fuel' (S polls) flow_action' flow_status'
    end
  else ret (flow_action, flow_status).

(** *** Reading the access rule out of the final payload (both notebooks)

    [[
    access_rule_id = flow_action['details']['output']['SetPermission']['details']['access_id']
    ]]
    [extractResultField] is that chain of subscripts with the step name
    and the field left open. *)
Definition extractResultField (payload : value) (stepName field : string) : result value :=
  getpath payload [KStr "details"; KStr "output"; KStr stepName; KStr "details"; KStr field].

Definition access_rule_id (flow_action : value) : result value :=
  extractResultField flow_action "SetPermission" "access_id".

End Notebook.

(** ** The main notebook, [Automation_Using_Globus_Flows.ipynb] *)

Module Main.

Definition client_id : string := "f794186b-f330-4595-b6c6-9c9d3e903e47".
Definition source_endpoint : string := "ddb59aef-6d04-11e5-ba46-22000b92c6ec".
Definition destination_endpoint : string := "e56c36e4-1063-11e6-a747-22000bf2d559".
Definition my_collaborators : string := "50b6a29c-63ac-11e4-8062-22000ab68755".

Definition flow_definition : value :=
  VDict [
    "Comment" =: VStr "Move files to guest collection and set access permissions";
    "StartAt" =: VStr "MoveFiles";
    "States" =: VDict [
      "MoveFiles" =: VDict [
        "Comment" =: VStr "Transfer from Globus Tutorial Endpoint 1 to a guest collection on Petrel";
        "Type" =: VStr "Action";
        "ActionUrl" =: VStr "https://actions.automate.globus.org/transfer/transfer";
        "ActionScope" =: VStr "https://auth.globus.org/scopes/actions.globus.org/transfer/transfer";
        "Parameters" =: VDict [
          "source_endpoint_id.$" =: VStr "$.input.source_endpoint_id";
          "destination_endpoint_id.$" =: VStr "$.input.destination_endpoint_id";
          "transfer_items" =: VList [
            VDict [
              "source_path.$" =: VStr "$.input.source_path";
              "destination_path.$" =: VStr "$.input.destination_path";
              "recursive" =: VBool true
            ]
          ]
        ];
        "ResultPath" =: VStr "$.MoveFiles";
        "WaitTime" =: VInt 60;
        "Next" =: VStr "SetPermission"
      ];
      "SetPermission" =: VDict [
        "Comment" =: VStr "Grant read permission on the data to the Tutorial users group";
        "Type" =: VStr "Action";
        "ActionUrl" =: VStr "https://actions.automate.globus.org/transfer/set_permission";
        "ActionScope" =: VStr "https://auth.globus.org/scopes/actions.globus.org/transfer/set_permission";
        "Parameters" =: VDict [
          "endpoint_id.$" =: VStr "$.input.destination_endpoint_id";
          "path.$" =: VStr "$.input.destination_path";
          "permissions" =: VStr "r";
          "principal.$" =: VStr "$.input.principal";
          "principal_type.$" =: VStr "$.input.principal_type";
          "operation" =: VStr "CREATE"
        ];
        "ResultPath" =: VStr "$.SetPermission";
        "End" =: VBool true
      ]
    ]
  ].

Section Cells.
Variable h : host.

(** Token cell: the bundle's tokens, the empty scope cache and the
    authorizer of the Flows client.  [FlowsClient.new_client] only
    builds the client. *)
Definition tokens_cell : M (value * list (key * value)) :=
  do tokens <- load_tokens h;
  run print (json_dumps h tokens);
  let saved_flow_scopes := [] in
  do flows_token <- lift (getpath tokens [KStr "flows.globus.org"; KStr "access_token"]);
  let flows_authorizer := AccessTokenAuthorizer flows_token in
  ret (tokens, saved_flow_scopes).

(** [[
    def get_flow_authorizer(flow_url, flow_scope, client_id):
        return globus_sdk.AccessTokenAuthorizer(
            access_token=saved_flow_scopes[flow_scope]['access_token'])
    ]]
    The global [saved_flow_scopes] is passed in and handed back. *)
Definition get_flow_authorizer (flow_url flow_scope client_id : value)
    (saved_flow_scopes : list (key * value)) : result value * list (key * value) :=
  (match subscript (VDict saved_flow_scopes) flow_scope with
   | Ok entry =>
       match getitem entry "access_token" with
       | Ok token => Ok (AccessTokenAuthorizer token)
       | Err e => Err e
       end
   | Err e => Err e
   end,
   saved_flow_scopes).

(** Deploy cell. *)
Definition deploy_cell : M (value * value) :=
  let flow_title := "Tutorial-Flow-" +:+ uuid4 h in
  do flow <- call h DeployFlow 0 [flow_definition; VStr flow_title];
  do flow_id <- lift (getitem flow "id");
  do flow_scope <- lift (getitem flow "globus_auth_scope");
  run print ("Successfully deployed flow (ID: " +:+ py_str h flow_id +:+ ")");
  run print ("Flow scope: " +:+ py_str h flow_scope);
  ret (flow_id, flow_scope).

(** Identity cell. *)
Definition identity_cell (tokens : value) : M (value * value) :=
  do auth_token <- lift (getpath tokens [KStr "auth.globus.org"; KStr "access_token"]);
  let auth_authorizer := AccessTokenAuthorizer auth_token in
  do primary_identity <- call h OAuth2UserInfo 0 [auth_authorizer];
  do identity_id <- lift (getitem primary_identity "sub");
  do username <- lift (getitem primary_identity "preferred_username");
  run print ("Username: " +:+ py_str h username +:+ " (ID: " +:+ py_str h identity_id +:+ ")");
  do email <- lift (getitem primary_identity "email");
  run print ("Notifications will be sent to: " +:+ py_str h email);
  ret (primary_identity, identity_id).

(** Flow input cell. *)
Definition destination_path (identity_id : value) : string :=
  "/automate-tutorial/" +:+ py_str h identity_id +:+ "-shared-files/".

Definition flow_input (identity_id : value) : value :=
  VDict [
    "input" =: VDict [
      "source_endpoint_id" =: VStr source_endpoint;
      "source_path" =: VStr "/share/godata";
      "destination_endpoint_id" =: VStr destination_endpoint;
      "destination_path" =: VStr (destination_path identity_id);
      "principal" =: VStr my_collaborators;
      "principal_type" =: VStr "group"
    ]
  ].

(** Authorization cell.
    [[
    if flow_scope not in saved_flow_scopes:
        native_auth_client = globus_sdk.NativeAppAuthClient(client_id)
        native_auth_client.oauth2_start_flow(requested_scopes=flow_scope)
        print(f"Login Here:\n\n{native_auth_client.oauth2_get_authorize_url()}")
        auth_code = input('Authorization Code: ')
        token_response = native_auth_client.oauth2_exchange_code_for_tokens(auth_code)
        saved_flow_scopes[flow_scope] = token_response.by_scopes[flow_scope]
        print(json.dumps(saved_flow_scopes, indent=2))
    ]]
    The response of the code exchange stands for its [by_scopes] view. *)
Definition authorize_cell (flow_scope : value) (saved_flow_scopes : list (key * value))
    : M (list (key * value)) :=
  do k <- lift (hash_key flow_scope);
  match dict_get k saved_flow_scopes with
  | Some _ => ret saved_flow_scopes
  | None =>
      run print ("Login Here:" +:+ nl +:+ nl +:+ authorize_url h client_id flow_scope);
      do auth_code <- input h "Authorization Code: ";
      do token_response <- call h OAuth2ExchangeCode 0 [VStr auth_code];
      do entry <- lift (subscript token_response flow_scope);
      let saved_flow_scopes := dict_set k entry saved_flow_scopes in
      run print (json_dumps h (VDict saved_flow_scopes));
      ret saved_flow_scopes
  end.

(** Run cell: start the run, poll every 5 seconds, print the payload.
    The Flows client calls [get_flow_authorizer] back inside [run_flow]
    and [flow_action_status]; an exception from it is the exception of
    that call. *)
Definition run_cell (fuel : nat) (flow_id flow_scope flow_input primary_identity : value)
    : M value :=
  do username <- lift (getitem primary_identity "preferred_username");
  let run_label := "Tutorial run for " +:+ py_str h username in
  do flow_action <- call h RunFlow 0 [flow_id; flow_scope; flow_input; VStr run_label];
  do flow_action_id <- lift (getitem flow_action "action_id");
  do flow_status <- lift (getitem flow_action "status");
  run print ("Flow action started with ID: " +:+ py_str h flow_action_id
             +:+ " - Status: " +:+ py_str h flow_status);
  do '(flow_action, flow_status) <-
    awaitCompletion h 5 flow_id flow_scope flow_action_id fuel 0 flow_action flow_status;
  run print (json_dumps h flow_action);
  ret flow_action.

(** Link cell. *)
Definition view_cell (destination_path : string) : M unit :=
  let query_params :=
    VDict ["origin_id" =: VStr destination_endpoint;
           "origin_path" =: VStr destination_path] in
  let url := "https://app.globus.org/file-manager?" +:+ urlencode h query_params in
  print ("View your files in the Globus web app here:" +:+ nl +:+ url).

(** Cleanup cell.  [DeleteData(tc, ...)] fetches a submission id from
    the Transfer service when it is built. *)
Definition cleanup_cell (tokens flow_action : value) (destination_path : string) : M unit :=
  do access_rule_id <- lift (access_rule_id flow_action);
  do transfer_token <- lift (getpath tokens [KStr "transfer.api.globus.org"; KStr "access_token"]);
  let transfer_authorizer := AccessTokenAuthorizer transfer_token in
  do response <- call h DeleteEndpointAclRule 0 [VStr destination_endpoint; access_rule_id];
  run print (py_str h response);
  let label := "Automation tutorial cleanup" in
  do submission <- call h GetSubmissionId 0 [];
  do submission_id <- lift (getitem submission "value");
  let ddata :=
    VDict ["submission_id" =: submission_id;
           "endpoint" =: VStr destination_endpoint;
           "label" =: VStr label;
           "recursive" =: VBool true;
           "DATA" =: VList [VDict ["path" =: VStr destination_path]]] in
  run call h EndpointAutoactivate 0 [VStr destination_endpoint];
  do submit_result <- call h SubmitDelete 0 [ddata];
  do task_id <- lift (getitem submit_result "task_id");
  print ("DELETE Task ID: " +:+ py_str h task_id).

(** The cells in notebook order. *)
Definition notebook (fuel : nat) : M unit :=
  do '(tokens, saved_flow_scopes) <- tokens_cell;
  do '(flow_id, flow_scope) <- deploy_cell;
  do '(primary_identity, identity_id) <- identity_cell tokens;
  do saved_flow_scopes <- authorize_cell flow_scope saved_flow_scopes;
  do flow_action <- run_cell fuel flow_id flow_scope (flow_input identity_id) primary_identity;
  run view_cell (destination_path identity_id);
  cleanup_cell tokens flow_action (destination_path identity_id).

End Cells.
End Main.

(** ** The variant notebook *)

Module Variant.

Definition CLIENT_ID : string := "e369806e-2351-414e-8ce9-ff49370defd3".
Definition tutorial_endpoint : string := "ddb59aef-6d04-11e5-ba46-22000b92c6ec".
Definition petrel_endpoint : string := "e56c36e4-1063-11e6-a747-22000bf2d559".
Definition tutorial_users_group : string := "50b6a29c-63ac-11e4-8062-22000ab68755".

Definition flow_definition : value :=
  VDict [
    "Comment" =: VStr "Move files to guest collection and set access permissions";
    "StartAt" =: VStr "MoveFiles";
    "States" =: VDict [
      "MoveFiles" =: VDict [
        "Comment" =: VStr "Transfer from Globus Tutorial Endpoint 1 to a guest collection on Petrel";
        "Type" =: VStr "Action";
        "ActionUrl" =: VStr "https://actions.automate.globus.org/transfer/transfer";
        "ActionScope" =: VStr "https://auth.globus.org/scopes/actions.globus.org/transfer/transfer";
        "Parameters" =: VDict [
          "source_endpoint_id.$" =: VStr "$.input.source_endpoint_id";
          "destination_endpoint_id.$" =: VStr "$.input.destination_endpoint_id";
          "sync_level" =: VStr "exists";
          "transfer_items" =: VList [
            VDict [
              "source_path.$" =: VStr "$.input.source_path";
              "destination_path.$" =: VStr "$.input.destination_path";
              "recursive" =: VBool true
            ]
          ]
        ];
        "ResultPath" =: VStr "$.MoveFiles";
        "WaitTime" =: VInt 3600;
        "Next" =: VStr "SetPermission"
      ];
      "SetPermission" =: VDict [
        "Comment" =: VStr "Grant read permission on the data to the Tutorial users group";
        "Type" =: VStr "Action";
        "ActionUrl" =: VStr "https://actions.automate.globus.org/transfer/set_permission";
        "ActionScope" =: VStr "https://auth.globus.org/scopes/actions.globus.org/transfer/set_permission";
        "Parameters" =: VDict [
          "endpoint_id.$" =: VStr "$.input.destination_endpoint_id";
          "path.$" =: VStr "$.input.destination_path";
          "permissions" =: VStr "r";
          "principal.$" =: VStr "$.input.principal";
          "principal_type.$" =: VStr "$.input.principal_type";
          "operation" =: VStr "CREATE"
        ];
        "ResultPath" =: VStr "$.SetPermission";
        "End" =: VBool true
      ]
    ]
  ].

Section Cells.
Variable h : host.

(** Token and identity cell.  [create_flows_client(CLIENT_ID)], in the
    cell before it, only builds the client. *)
Definition tokens_cell : M (value * value * value) :=
  do tokens <- load_tokens h;
  do auth_token <- lift (getpath tokens [KStr "auth.globus.org"; KStr "access_token"]);
  let auth_authorizer := AccessTokenAuthorizer auth_token in
  do primary_identity <- call h OAuth2UserInfo 0 [auth_authorizer];
  do identity_id <- lift (getitem primary_identity "sub");
  do username <- lift (getitem primary_identity "preferred_username");
  run print ("Setting permissions for user: " +:+ py_str h username);
  do email <- lift (getitem primary_identity "email");
  run print ("Notifications will be sent to: " +:+ py_str h email);
  ret (tokens, primary_identity, identity_id).

(** Deploy cell. *)
Definition deploy_cell : M (value * value) :=
  let flow_title := "Tutorial-Flow-" +:+ uuid4 h in
  do flow <- call h DeployFlow 0 [flow_definition; VStr flow_title];
  do flow_id <- lift (getitem flow "id");
  do flow_scope <- lift (getitem flow "globus_auth_scope");
  run print ("Successfully deployed flow (ID: " +:+ py_str h flow_id +:+ ")");
  run print ("Flow scope: " +:+ py_str h flow_scope);
  ret (flow_id, flow_scope).

(** Flow input cell. *)
Definition flow_input (identity_id : value) : value :=
  VDict [
    "input" =: VDict [
      "source_path" =: VStr "/share/godata";
      "destination_path" =: VStr "/disthome-automate/";
      "source_endpoint_id" =: VStr tutorial_endpoint;
      "destination_endpoint_id" =: VStr petrel_endpoint;
      "principal" =: identity_id;
      "principal_type" =: VStr "identity"
    ]
  ].

(** Run cell: start the run, poll every 2 seconds, print the payload. *)
Definition run_cell (fuel : nat) (flow_id flow_scope flow_input : value) : M value :=
  do flow_action <- call h RunFlow 0 [flow_id; flow_scope; flow_input];
  do flow_action_id <- lift (getitem flow_action "action_id");
  do flow_status <- lift (getitem flow_action "status");
  run print ("Flow action started with id: " +:+ py_str h flow_action_id);
  do '(flow_action, flow_status) <-
    awaitCompletion h 2 flow_id flow_scope flow_action_id fuel 0 flow_action flow_status;
  run print (pformat h flow_action);
  ret flow_action.

(** Cleanup cell. *)
Definition cleanup_cell (tokens flow_action : value) : M unit :=
  do access_rule_id <- lift (access_rule_id flow_action);
  do transfer_token <- lift (getpath tokens [KStr "transfer.api.globus.org"; KStr "access_token"]);
  let transfer_authorizer := AccessTokenAuthorizer transfer_token in
  do response <- call h DeleteEndpointAclRule 0 [VStr petrel_endpoint; access_rule_id];
  print (py_str h response).

(** The cells in notebook order. *)
Definition notebook (fuel : nat) : M unit :=
  do '(tokens, primary_identity, identity_id) <- tokens_cell;
  do '(flow_id, flow_scope) <- deploy_cell;
  do flow_action <- run_cell fuel flow_id flow_scope (flow_input identity_id);
  cleanup_cell tokens flow_action.

End Cells.
End Variant.

(** ** What a trace shows *)

Definition is_status_query (e : event) : bool :=
  match e with
  | Call FlowActionStatus _ _ => true
  | _ => false
  end.

Definition is_remote_call (e : event) : bool :=
  match e with
  | Call _ _ _ => true
  | _ => false
  end.

Definition sleep_secs (e : event) : nat :=
  match e with
  | Sleep secs => secs
  | _ => 0
  end.

Definition is_sleep (e : event) : bool :=
  match e with
  | Sleep _ => true
  | _ => false
  end.

(** Number of [flow_action_status] calls, number of sleeps, seconds slept,
    number of remote calls of any kind. *)
Definition status_queries (tr : list event) : nat := length (List.filter is_status_query tr).
Definition sleeps (tr : list event) : nat := length (List.filter is_sleep tr).
Definition time_slept (tr : list event) : nat := list_sum (List.map sleep_secs tr).
Definition remote_calls (tr : list event) : nat := length (List.filter is_remote_call tr).

(** The status a response to a status query carries, when it carries one. *)
Definition reported_status (response : result value) : option value :=
  match response with
  | Ok payload =>
      match getitem payload "status" with
      | Ok s => Some s
      | Err _ => None
      end
  | Err _ => None
  end.

(** The status service of [h] reports a running status for the queries
    [polls], ..., [polls + N - 1]. *)
Definition reports_running (h : host) (polls N : nat) : Prop :=
  ∀ k, k < N → reported_status (remote h FlowActionStatus (polls + k)) = Some (VStr "ACTIVE").

(** A status query that did not report a running status: it reported
    another status, or none at all. *)
Definition terminal_observation (e : event) : bool :=
  match e with
  | Call FlowActionStatus _ response =>
      match reported_status response with
      | Some s => negb (is_active s)
      | None => true
      end
  | _ => false
  end.

(** ** The shape of a flow definition

    The notebooks only build the definition; the predicates below state, in
    the words of the specification, what a well-formed definition is. *)

Definition states_of (D : value) : list (key * value) :=
  match getitem D "States" with
  | Ok (VDict kvs) => kvs
  | _ => []
  end.

Definition start_at (D : value) : option string :=
  match getitem D "StartAt" with
  | Ok (VStr s) => Some s
  | _ => None
  end.

Definition next_of (step : value) : option string :=
  match getitem step "Next" with
  | Ok (VStr s) => Some s
  | _ => None
  end.

(** A terminal step carries ["End": True]. *)
Definition is_end (step : value) : bool :=
  match getitem step "End" with
  | Ok (VBool true) => true
  | _ => false
  end.

Definition has_step (D : value) (name : string) : bool :=
  match dict_get (KStr name) (states_of D) with
  | Some _ => true
  | None => false
  end.

(** The steps that [StartAt] marks as the start. *)
Definition start_steps (D : value) : list key :=
  List.filter
    (fun k => match start_at D with
              | Some s => key_eqb k (KStr s)
              | None => false
              end)
    (List.map fst (states_of D)).

(** Every ["Next"] entry names a step of the definition. *)
Definition next_refs_defined (D : value) : bool :=
  forallb
    (fun kv => match getitem (snd kv) "Next" with
               | Ok (VStr n) => has_step D n
               | Ok _ => false
               | Err _ => true
               end)
    (states_of D).

(** Every step that is not terminal has a ["Next"] naming a step. *)
Definition nonterminal_steps_linked (D : value) : bool :=
  forallb
    (fun kv => if is_end (snd kv) then true
               else match next_of (snd kv) with
                    | Some n => has_step D n
                    | None => false
                    end)
    (states_of D).

(** [follows steps cur rest]: from step [cur], the names [rest] are the
    successive ["Next"] references and the last step named is terminal. *)
Fixpoint follows (steps : list (key * value)) (cur : string) (rest : list string) : bool :=
  match dict_get (KStr cur) steps with
  | None => false
  | Some step =>
      match rest with
      | [] => is_end step
      | nxt :: rest' =>
          negb (is_end step)
          && match next_of step with
             | Some n => String.eqb n nxt
             | None => false
             end
          && follows steps nxt rest'
      end
  end.

(** A path from the start step to a terminal step. *)
Definition flow_path (D : value) (p : list string) : bool :=
  match p, start_at D with
  | first :: rest, Some s => String.eqb first s && follows (states_of D) first rest
  | _, _ => false
  end.

Definition well_formed_flow (D : value) : Prop :=
  NoDup (List.map fst (states_of D))
  ∧ length (start_steps D) = 1
  ∧ next_refs_defined D = true
  ∧ nonterminal_steps_linked D = true
  ∧ ∃ p, flow_path D p = true ∧ ∀ q, flow_path D q = true → q = p.

(** ** Placeholders of a flow definition and their binding in a run input *)

(** [s.endswith(suffix)] *)
Definition ends_with (suffix s : string) : bool :=
  let n := String.length s in
  let m := String.length suffix in
  Nat.leb m n && String.eqb (String.substring (n - m) m s) suffix.

Definition is_placeholder_key (k : key) : bool :=
  match k with
  | KStr s => ends_with ".$" s
  | _ => false
  end.

(** The values bound to keys ending in [.$], at any depth of a
    ["Parameters"] document. *)
Fixpoint placeholders (v : value) : list value :=
  match v with
  | VDict kvs =>
      (fix items (kvs : list (key * value)) : list value :=
         match kvs with
         | [] => []
         | (k, v') :: rest =>
             (if is_placeholder_key k then [v'] else placeholders v') ++ items rest
         end) kvs
  | VList xs =>
      (fix elems (xs : list value) : list value :=
         match xs with
         | [] => []
         | x :: rest => placeholders x ++ elems rest
         end) xs
  | _ => []
  end.

Definition flow_placeholders (D : value) : list value :=
  flat_map
    (fun kv => match getitem (snd kv) "Parameters" with
               | Ok ps => placeholders ps
               | Err _ => []
               end)
    (states_of D).

(** [s.split('.')] *)
Fixpoint split_dots (s : string) : list string :=
  match s with
  | EmptyString => [EmptyString]
  | String c rest =>
      if Ascii.eqb c "."%char then EmptyString :: split_dots rest
      else match split_dots rest with
           | [] => [String c EmptyString]
           | w :: ws => String c w :: ws
           end
  end.

(** The value a path [$.a.b...] selects in a document. *)
Definition resolve (root : value) (path : string) : option value :=
  match split_dots path with
  | "$" :: ks =>
      match getpath root (List.map KStr ks) with
      | Ok v => Some v
      | Err _ => None
      end
  | _ => None
  end.

(** A placeholder is bound by a run input when it is a path under
    [$.input] that selects an entry of the input. *)
Definition bound_in (run_input : value) (placeholder : value) : bool :=
  match placeholder with
  | VStr path =>
      String.prefix "$.input." path
      && match resolve run_input path with
         | Some _ => true
         | None => false
         end
  | _ => false
  end.

(** ** Mock hosts *)

(** The output of a run that completed both steps. *)
Definition succeeded_output : list (key * value) :=
  ["MoveFiles" =: VDict ["details" =: VDict ["task_id" =: VStr "t-1"]];
   "SetPermission" =: VDict ["details" =: VDict ["access_id" =: VInt 42]]].

(** A status payload as the Flows service returns it: only a run that
    succeeded carries the output of its steps. *)
Definition status_payload (status : string) : value :=
  VDict ["action_id" =: VStr "run-1";
         "status" =: VStr status;
         "details" =: VDict ["output" =:
           VDict (if String.eqb status "SUCCEEDED" then succeeded_output else [])]].

Definition succeeded_payload : value := status_payload "SUCCEEDED".

(** The credential bundle of the hosting environment, once decoded. *)
Definition mock_bundle : value :=
  VDict ["tokens" =: VDict [
    "auth.globus.org" =: VDict ["access_token" =: VStr "auth-token"];
    "flows.globus.org" =: VDict ["access_token" =: VStr "flows-token"];
    "transfer.api.globus.org" =: VDict ["access_token" =: VStr "transfer-token"]]].

(** A status service that reports [ACTIVE] for the first [N] queries and
    [final] from then on. *)
Definition running_then (N : nat) (final : string) (n : nat) : result value :=
  if Nat.ltb n N then Ok (status_payload "ACTIVE") else Ok (status_payload final).

Definition show (v : value) : string :=
  match v with
  | VStr s => s
  | _ => "<value>"
  end.

(** A host whose run starts with status [initial] and whose status service
    is [feed]; the other services give the answers a first run gets. *)
Definition mock_host (env : gmap string string) (initial : string)
    (feed : nat → result value) : host :=
  {| environ := env;
     b64decode := Ok;
     pickle_loads := fun _ => Ok mock_bundle;
     py_str := show;
     json_dumps := show;
     pformat := show;
     urlencode := show;
     uuid4 := "0000";
     authorize_url := fun _ _ => "https://auth.globus.org/";
     stdin := "code";
     remote := fun op n =>
       match op with
       | DeployFlow =>
           Ok (VDict ["id" =: VStr "flow-1"; "globus_auth_scope" =: VStr "scope-1"])
       | OAuth2UserInfo =>
           Ok (VDict ["sub" =: VStr "id-1";
                      "preferred_username" =: VStr "user";
                      "email" =: VStr "user@example.org"])
       | OAuth2ExchangeCode =>
           Ok (VDict ["scope-1" =: VDict ["access_token" =: VStr "flow-token"]])
       | RunFlow => Ok (status_payload initial)
       | FlowActionStatus => feed n
       | DeleteEndpointAclRule => Ok (VDict ["code" =: VStr "Deleted"])
       | GetSubmissionId => Ok (VDict ["value" =: VStr "submission-1"])
       | EndpointAutoactivate => Ok (VDict ["code" =: VStr "AutoActivated"])
       | SubmitDelete => Ok (VDict ["task_id" =: VStr "task-1"])
       end |}.


(** The mocks the examples run on. *)
Definition provisioned : gmap string string := {["GLOBUS_DATA" := "gASV"]}.
Definition first_run : host := mock_host provisioned "ACTIVE" (running_then 2 "SUCCEEDED").
Definition two_then_succeeded : host := mock_host ∅ "ACTIVE" (running_then 2 "SUCCEEDED").
Definition one_then_failed : host := mock_host ∅ "ACTIVE" (running_then 1 "FAILED").
Definition one_then_canceled : host := mock_host ∅ "ACTIVE" (running_then 1 "CANCELED").
Definition always_running : host :=
  mock_host ∅ "ACTIVE" (fun _ => Ok (status_payload "ACTIVE")).

Definition one_then_succeeded : host := mock_host ∅ "ACTIVE" (running_then 1 "SUCCEEDED").

(** The main notebook's loop on these hosts, entered on a running status. *)
Definition one_then_succeeded_poll (fuel : nat) : M (value * value) :=
  awaitCompletion one_then_succeeded 5 (VStr "flow") (VStr "scope") (VStr "run-1") fuel 0
    (status_payload "ACTIVE") (VStr "ACTIVE").

Definition two_then_succeeded_poll (fuel : nat) : M (value * value) :=
  awaitCompletion two_then_succeeded 5 (VStr "flow") (VStr "scope") (VStr "run-1") fuel 0
    (status_payload "ACTIVE") (VStr "ACTIVE").

(** ** Further measures of a run *)

Global Instance api_eq_dec : EqDecision api.
Proof. solve_decision. Defined.

(** The remote operations a trace calls, in order. *)
Definition called (tr : list event) : list api :=
  omap (fun e => match e with
                 | Call op _ _ => Some op
                 | _ => None
                 end) tr.

(** The prompts a trace shows the user. *)
Definition prompts (tr : list event) : nat :=
  length (List.filter (fun e => match e with
                                | Input _ _ => true
                                | _ => false
                                end) tr).

(** [m] sleeps only to poll: once, for [secs] seconds, before each status
    query. *)
Definition paced (secs : nat) {A} (m : M A) : Prop :=
  sleeps (snd m) = status_queries (snd m)
  ∧ time_slept (snd m) = status_queries (snd m) * secs.

(** An order of remote calls: nothing more, one call and then the rest,
    or any number of calls of one operation and then the rest. *)
Inductive protocol : Type :=
| Stop
| Then (op : api) (rest : protocol)
| Many (op : api) (rest : protocol).

(** What is left of a protocol after one call, if the call is allowed. *)
Fixpoint step (p : protocol) (op : api) : option protocol :=
  match p with
  | Stop => None
  | Then op' rest => if decide (op = op') then Some rest else None
  | Many op' rest => if decide (op = op') then Some p else step rest op
  end.

Fixpoint consume (p : protocol) (ops : list api) : option protocol :=
  match ops with
  | [] => Some p
  | op :: ops' =>
      match step p op with
      | Some p' => consume p' ops'
      | None => None
      end
  end.

(** [m] keeps to protocol [p]: the calls it makes are allowed by [p] in
    their order, and when it returns what is left of [p] is [p']. *)
Definition moves {A} (m : M A) (p p' : protocol) : Prop :=
  ∃ q, consume p (called (snd m)) = Some q ∧ ∀ a, fst m = Ret a → q = p'.

(** The order in which each notebook calls the services. *)
Definition main_protocol : protocol :=
  Then DeployFlow (Then OAuth2UserInfo (Then OAuth2ExchangeCode (Then RunFlow
    (Many FlowActionStatus
      (Then DeleteEndpointAclRule (Then GetSubmissionId (Then EndpointAutoactivate
        (Then SubmitDelete Stop)))))))).

Definition variant_protocol : protocol :=
  Then OAuth2UserInfo (Then DeployFlow (Then RunFlow
    (Many FlowActionStatus (Then DeleteEndpointAclRule Stop)))).

(** [h] with the answers of one remote operation replaced. *)
Definition answering (h : host) (op : api) (answer : nat → result value) : host :=
  {| environ := environ h;
     b64decode := b64decode h;
     pickle_loads := pickle_loads h;
     py_str := py_str h;
     json_dumps := json_dumps h;
     pformat := pformat h;
     urlencode := urlencode h;
     uuid4 := uuid4 h;
     authorize_url := authorize_url h;
     stdin := stdin h;
     remote := fun op' n => if decide (op' = op) then answer n else remote h op' n |}.


Definition run_refused : host :=
  answering (mock_host ∅ "ACTIVE" (running_then 1 "SUCCEEDED")) RunFlow
    (fun _ => Err (LibraryError "403")).

(** A bundle's tokens, a Transfer service that refuses to delete a rule. *)
Definition mock_tokens : value :=
  VDict ["auth.globus.org" =: VDict ["access_token" =: VStr "auth-token"];
         "flows.globus.org" =: VDict ["access_token" =: VStr "flows-token"];
         "transfer.api.globus.org" =: VDict ["access_token" =: VStr "transfer-token"]].

Definition rule_locked : host :=
  answering first_run DeleteEndpointAclRule (fun _ => Err (LibraryError "409")).

(** How the identity lookup of either notebook can end well. *)
Definition identity_known (h : host) (tokens primary_identity identity_id : value) : Prop :=
  (∃ token, getpath tokens [KStr "auth.globus.org"; KStr "access_token"] = Ok token)
  ∧ remote h OAuth2UserInfo 0 = Ok primary_identity
  ∧ getitem primary_identity "sub" = Ok identity_id
  ∧ (∃ username, getitem primary_identity "preferred_username" = Ok username)
  ∧ (∃ email, getitem primary_identity "email" = Ok email).

(** ** Basic facts *)

Lemma key_eqb_eq (a b : key) : key_eqb a b = true ↔ a = b.
Proof.
  destruct a, b; simpl; try (split; [discriminate | congruence]).
  - done.
  - rewrite Z.eqb_eq. split; congruence.
  - rewrite String.eqb_eq. split; congruence.
Qed.

Lemma key_eqb_refl (a : key) : key_eqb a a = true.
Proof. by apply key_eqb_eq. Qed.

Lemma is_active_spec (v : value) : is_active v = true ↔ v = VStr "ACTIVE".
Proof.
  destruct v; simpl; try (split; [discriminate | congruence]).
  rewrite String.eqb_eq. split; congruence.
Qed.

Lemma is_active_other (s : string) : s ≠ "ACTIVE" → is_active (VStr s) = false.
Proof. intros Hs. simpl. by apply String.eqb_neq. Qed.

Lemma status_queries_app (tr1 tr2 : list event) :
  status_queries (tr1 ++ tr2) = status_queries tr1 + status_queries tr2.
Proof. unfold status_queries. by rewrite List.filter_app, length_app. Qed.

Lemma sleeps_app (tr1 tr2 : list event) : sleeps (tr1 ++ tr2) = sleeps tr1 + sleeps tr2.
Proof. unfold sleeps. by rewrite List.filter_app, length_app. Qed.

Lemma time_slept_app (tr1 tr2 : list event) :
  time_slept (tr1 ++ tr2) = time_slept tr1 + time_slept tr2.
Proof. unfold time_slept. by rewrite List.map_app, list_sum_app. Qed.

(** ** The poll loop, one iteration at a time *)

(** Splits the three events of an iteration off the front of a trace. *)
Ltac split_iteration :=
  match goal with
  | |- context [?a :: ?b :: ?c :: ?tr] =>
      change (a :: b :: c :: tr) with ([a; b; c] ++ tr)
  end;
  rewrite ?status_queries_app, ?sleeps_app, ?time_slept_app.

Section Poll.
Variable h : host.
Variables (pollInterval : nat) (flow_id flow_scope flow_action_id : value).

Local Abbreviation await := (awaitCompletion h pollInterval flow_id flow_scope flow_action_id).
Local Abbreviation query := (Call FlowActionStatus [flow_id; flow_scope; flow_action_id]).

Lemma await_terminal fuel polls fa fs :
  is_active fs = false → await fuel polls fa fs = (Ret (fa, fs), []).
Proof. intros Hfs. destruct fuel; simpl; by rewrite Hfs. Qed.

Lemma await_no_fuel polls fa fs :
  is_active fs = true → await 0 polls fa fs = (OutOfFuel, []).
Proof. intros Hfs. simpl. by rewrite Hfs. Qed.

Lemma await_step fuel polls fa fs p s :
  is_active fs = true →
  remote h FlowActionStatus polls = Ok p →
  getitem p "status" = Ok s →
  await (S fuel) polls fa fs =
    (fst (await fuel (S polls) p s),
     Sleep pollInterval :: query (Ok p) :: Print ("Flow status: " +:+ py_str h s)
       :: snd (await fuel (S polls) p s)).
Proof.
  intros Hfs Hp Hs. cbn [awaitCompletion]. rewrite Hfs.
  unfold call. rewrite Hp. cbn [lift bind ret emit time_sleep print app].
  rewrite Hs. cbn [lift bind ret emit print app].
  by destruct (await fuel (S polls) p s) as [r tr].
Qed.

Lemma await_remote_error fuel polls fa fs e :
  is_active fs = true →
  remote h FlowActionStatus polls = Err e →
  await (S fuel) polls fa fs = (Raise e, [Sleep pollInterval; query (Err e)]).
Proof.
  intros Hfs Hp. cbn [awaitCompletion]. rewrite Hfs.
  unfold call. by rewrite Hp.
Qed.

Lemma await_no_status fuel polls fa fs p e :
  is_active fs = true →
  remote h FlowActionStatus polls = Ok p →
  getitem p "status" = Err e →
  await (S fuel) polls fa fs = (Raise e, [Sleep pollInterval; query (Ok p)]).
Proof.
  intros Hfs Hp Hs. cbn [awaitCompletion]. rewrite Hfs.
  unfold call. rewrite Hp. cbn [lift bind ret emit time_sleep print app].
  by rewrite Hs.
Qed.

Lemma reported_status_Some r s :
  reported_status r = Some s ↔ ∃ p, r = Ok p ∧ getitem p "status" = Ok s.
Proof.
  unfold reported_status. split.
  - destruct r as [p|e]; [|discriminate].
    destruct (getitem p "status") as [s'|e] eqn:Hs; [|discriminate].
    intros [= <-]. eauto.
  - intros (p & -> & ->). done.
Qed.

(** [N] running reports and then a terminal one: the loop runs [N + 1]
    iterations and hands back the terminal payload. *)
Lemma await_running_then_terminal N : ∀ fuel polls fa fs p s,
  is_active fs = true →
  reports_running h polls N →
  remote h FlowActionStatus (polls + N) = Ok p →
  getitem p "status" = Ok s →
  is_active s = false →
  N < fuel →
  ∃ tr, await fuel polls fa fs = (Ret (p, s), tr)
        ∧ status_queries tr = N + 1
        ∧ sleeps tr = N + 1
        ∧ time_slept tr = (N + 1) * pollInterval.
Proof.
  induction N as [|N IH]; intros fuel polls fa fs p s Hfs Hrun Hp Hs Hterm Hfuel.
  - destruct fuel as [|fuel]; [lia|].
    rewrite Nat.add_0_r in Hp.
    rewrite (await_step _ _ _ _ _ _ Hfs Hp Hs), (await_terminal _ _ _ _ Hterm).
    eexists. split; [done|]. cbn. repeat split; lia.
  - destruct fuel as [|fuel]; [lia|].
    pose proof (Hrun 0 ltac:(lia)) as H0. rewrite Nat.add_0_r in H0.
    apply reported_status_Some in H0 as (q & Hq & Hqs).
    rewrite (await_step _ _ _ _ _ _ Hfs Hq Hqs).
    destruct (IH fuel (S polls) q (VStr "ACTIVE") p s) as (tr & Htr & Hn & Hsl & Ht);
      [done| |by rewrite <- Hp; f_equal; lia|done|done|lia|].
    { intros k Hk. replace (S polls + k) with (polls + S k) by lia. apply Hrun. lia. }
    rewrite Htr. cbn [fst snd]. eexists. split; [done|].
    split_iteration. rewrite Hn, Hsl, Ht.
    cbn. repeat split; lia.
Qed.

(** Every report is a running one: the loop uses up any fuel. *)
Lemma await_always_running : ∀ fuel polls fa fs,
  is_active fs = true →
  (∀ k, reported_status (remote h FlowActionStatus k) = Some (VStr "ACTIVE")) →
  ∃ tr, await fuel polls fa fs = (OutOfFuel, tr)
        ∧ status_queries tr = fuel
        ∧ sleeps tr = fuel
        ∧ time_slept tr = fuel * pollInterval.
Proof.
  induction fuel as [|fuel IH]; intros polls fa fs Hfs Hall.
  - rewrite await_no_fuel by done. by eexists.
  - pose proof (Hall polls) as H0.
    apply reported_status_Some in H0 as (q & Hq & Hqs).
    rewrite (await_step _ _ _ _ _ _ Hfs Hq Hqs).
    destruct (IH (S polls) q (VStr "ACTIVE")) as (tr & Htr & Hn & Hsl & Ht); [done..|].
    rewrite Htr. cbn [fst snd]. eexists. split; [done|].
    split_iteration. rewrite Hn, Hsl, Ht.
    cbn. repeat split; lia.
Qed.

(** Whatever the service does, each sleep is followed by one status
    query: the loop sleeps as often as it queries. *)
Lemma await_sleeps_queries : ∀ fuel polls fa fs,
  let tr := snd (await fuel polls fa fs) in
  sleeps tr = status_queries tr ∧ time_slept tr = status_queries tr * pollInterval.
Proof.
  induction fuel as [|fuel IH]; intros polls fa fs; cbn zeta.
  - destruct (is_active fs) eqn:Hfs.
    + by rewrite await_no_fuel.
    + by rewrite await_terminal.
  - destruct (is_active fs) eqn:Hfs; [|by rewrite await_terminal].
    destruct (remote h FlowActionStatus polls) as [p|e] eqn:Hp.
    + destruct (getitem p "status") as [s|e] eqn:Hs.
      * rewrite (await_step _ _ _ _ _ _ Hfs Hp Hs). cbn [snd].
        destruct (IH (S polls) p s) as [Hsl Ht].
        split_iteration. rewrite Hsl, Ht.
        cbn. split; lia.
      * rewrite (await_no_status _ _ _ _ _ _ Hfs Hp Hs). cbn. split; lia.
    + rewrite (await_remote_error _ _ _ _ _ Hfs Hp). cbn. split; lia.
Qed.

(** After a status query that did not report a running status the loop
    does nothing but print that status. *)
Lemma await_quiet_after_terminal : ∀ fuel polls fa fs tr1 e tr2,
  snd (await fuel polls fa fs) = tr1 ++ e :: tr2 →
  terminal_observation e = true →
  status_queries tr2 = 0 ∧ sleeps tr2 = 0.
Proof.
  induction fuel as [|fuel IH]; intros polls fa fs tr1 e tr2 Htr He.
  - destruct (is_active fs) eqn:Hfs.
    + rewrite await_no_fuel in Htr by done. by destruct tr1.
    + rewrite await_terminal in Htr by done. by destruct tr1.
  - destruct (is_active fs) eqn:Hfs;
      [|rewrite await_terminal in Htr by done; by destruct tr1].
    destruct (remote h FlowActionStatus polls) as [p|ex] eqn:Hp.
    + destruct (getitem p "status") as [s|ex] eqn:Hs.
      * rewrite (await_step _ _ _ _ _ _ Hfs Hp Hs) in Htr. cbn [snd] in Htr.
        destruct tr1 as [|e1 [|e2 [|e3 tr1]]]; simplify_eq/=.
        -- rewrite Hs in He. apply negb_true_iff in He.
           by rewrite await_terminal.
        -- by eapply IH.
      * rewrite (await_no_status _ _ _ _ _ _ Hfs Hp Hs) in Htr. cbn [snd] in Htr.
        destruct tr1 as [|e1 [|e2 [|e3 tr1]]]; by simplify_eq/=.
    + rewrite (await_remote_error _ _ _ _ _ Hfs Hp) in Htr. cbn [snd] in Htr.
      destruct tr1 as [|e1 [|e2 [|e3 tr1]]]; by simplify_eq/=.
Qed.

(** The status the loop leaves behind is never a running one. *)
Lemma await_final_status : ∀ fuel polls fa fs fa' fs',
  fst (await fuel polls fa fs) = Ret (fa', fs') → is_active fs' = false.
Proof.
  induction fuel as [|fuel IH]; intros polls fa fs fa' fs' Hret.
  - destruct (is_active fs) eqn:Hfs.
    + by rewrite await_no_fuel in Hret.
    + rewrite await_terminal in Hret by done. by simplify_eq/=.
  - destruct (is_active fs) eqn:Hfs;
      [|rewrite await_terminal in Hret by done; by simplify_eq/=].
    destruct (remote h FlowActionStatus polls) as [p|ex] eqn:Hp.
    + destruct (getitem p "status") as [s|ex] eqn:Hs.
      * rewrite (await_step _ _ _ _ _ _ Hfs Hp Hs) in Hret. by eapply IH.
      * by rewrite (await_no_status _ _ _ _ _ _ Hfs Hp Hs) in Hret.
    + by rewrite (await_remote_error _ _ _ _ _ Hfs Hp) in Hret.
Qed.

(** Fuel only bounds the number of iterations: a run that ended keeps its
    outcome and its trace under any larger fuel. *)
Lemma await_fuel_mono : ∀ fuel fuel' polls fa fs,
  (fuel ≤ fuel')%nat →
  fst (await fuel polls fa fs) ≠ OutOfFuel →
  await fuel' polls fa fs = await fuel polls fa fs.
Proof.
  induction fuel as [|fuel IH]; intros fuel' polls fa fs Hle Hend.
  - destruct (is_active fs) eqn:Hfs.
    + by rewrite await_no_fuel in Hend.
    + by rewrite !await_terminal.
  - destruct (is_active fs) eqn:Hfs; [|by rewrite !await_terminal].
    destruct fuel' as [|fuel']; [lia|].
    destruct (remote h FlowActionStatus polls) as [p|ex] eqn:Hp.
    + destruct (getitem p "status") as [s|ex] eqn:Hs.
      * rewrite (await_step fuel _ _ _ _ _ Hfs Hp Hs) in Hend |- *.
        rewrite (await_step fuel' _ _ _ _ _ Hfs Hp Hs).
        rewrite (IH fuel' (S polls) p s); [done|lia|done].
      * by rewrite !(await_no_status _ _ _ _ _ _ Hfs Hp Hs).
    + by rewrite !(await_remote_error _ _ _ _ _ Hfs Hp).
Qed.

End Poll.

(** ** The run cells around the loop *)

Section RunCells.
Variable h : host.
Variables (flow_id flow_scope flow_input fa0 aid fs : value).
Hypothesis Hrun : remote h RunFlow 0 = Ok fa0.
Hypothesis Haid : getitem fa0 "action_id" = Ok aid.
Hypothesis Hfs : getitem fa0 "status" = Ok fs.

(** What the main notebook's run cell does before the loop. *)
Local Abbreviation main_prologue u :=
  [Call RunFlow [flow_id; flow_scope; flow_input; VStr ("Tutorial run for " +:+ py_str h u)] (Ok fa0);
   Print ("Flow action started with ID: " +:+ py_str h aid +:+ " - Status: " +:+ py_str h fs)].

Lemma main_run_cell_eq fuel ident u :
  getitem ident "preferred_username" = Ok u →
  Main.run_cell h fuel flow_id flow_scope flow_input ident =
    match awaitCompletion h 5 flow_id flow_scope aid fuel 0 fa0 fs with
    | (Ret (fa, _), tr) => (Ret fa, main_prologue u ++ tr ++ [Print (json_dumps h fa)])
    | (Raise e, tr) => (Raise e, main_prologue u ++ tr)
    | (OutOfFuel, tr) => (OutOfFuel, main_prologue u ++ tr)
    end.
Proof.
  intros Hu. unfold Main.run_cell, call. rewrite Hu. cbn [lift bind ret].
  rewrite Hrun. cbn [lift bind ret emit print app]. rewrite Haid, Hfs.
  cbn [lift bind ret emit print app].
  by destruct (awaitCompletion h 5 flow_id flow_scope aid fuel 0 fa0 fs) as [[[fa s]|e|] tr].
Qed.

(** The same for the variant. *)
Local Abbreviation variant_prologue :=
  [Call RunFlow [flow_id; flow_scope; flow_input] (Ok fa0);
   Print ("Flow action started with id: " +:+ py_str h aid)].

Lemma variant_run_cell_eq fuel :
  Variant.run_cell h fuel flow_id flow_scope flow_input =
    match awaitCompletion h 2 flow_id flow_scope aid fuel 0 fa0 fs with
    | (Ret (fa, _), tr) => (Ret fa, variant_prologue ++ tr ++ [Print (pformat h fa)])
    | (Raise e, tr) => (Raise e, variant_prologue ++ tr)
    | (OutOfFuel, tr) => (OutOfFuel, variant_prologue ++ tr)
    end.
Proof.
  unfold Variant.run_cell, call.
  rewrite Hrun. cbn [lift bind ret emit print app]. rewrite Haid, Hfs.
  cbn [lift bind ret emit print app].
  by destruct (awaitCompletion h 2 flow_id flow_scope aid fuel 0 fa0 fs) as [[[fa s]|e|] tr].
Qed.

(** The cells add no sleep and no status query of their own. *)
Lemma main_run_cell_returns fuel ident u p s tr :
  getitem ident "preferred_username" = Ok u →
  awaitCompletion h 5 flow_id flow_scope aid fuel 0 fa0 fs = (Ret (p, s), tr) →
  ∃ tr', Main.run_cell h fuel flow_id flow_scope flow_input ident = (Ret p, tr')
         ∧ status_queries tr' = status_queries tr
         ∧ sleeps tr' = sleeps tr
         ∧ time_slept tr' = time_slept tr.
Proof.
  intros Hu Hloop. rewrite (main_run_cell_eq _ _ _ Hu), Hloop.
  eexists. split; [done|].
  rewrite !status_queries_app, !sleeps_app, !time_slept_app. cbn. repeat split; lia.
Qed.

Lemma variant_run_cell_returns fuel p s tr :
  awaitCompletion h 2 flow_id flow_scope aid fuel 0 fa0 fs = (Ret (p, s), tr) →
  ∃ tr', Variant.run_cell h fuel flow_id flow_scope flow_input = (Ret p, tr')
         ∧ status_queries tr' = status_queries tr
         ∧ sleeps tr' = sleeps tr
         ∧ time_slept tr' = time_slept tr.
Proof.
  intros Hloop. rewrite variant_run_cell_eq, Hloop.
  eexists. split; [done|].
  rewrite !status_queries_app, !sleeps_app, !time_slept_app. cbn. repeat split; lia.
Qed.

End RunCells.

(** ** Claims about the poll loop *)

(** The loop and both run cells on [N] running reports followed by a
    terminal one. *)
Lemma run_cells_running_then_terminal (h : host) (N : nat)
    (flow_id flow_scope fa0 aid p s : value) :
  remote h RunFlow 0 = Ok fa0 →
  getitem fa0 "action_id" = Ok aid →
  getitem fa0 "status" = Ok (VStr "ACTIVE") →
  reports_running h 0 N →
  remote h FlowActionStatus N = Ok p →
  getitem p "status" = Ok s →
  is_active s = false →
  ∀ fuel, N < fuel →
    (∀ pollInterval, ∃ tr,
        awaitCompletion h pollInterval flow_id flow_scope aid fuel 0 fa0 (VStr "ACTIVE")
          = (Ret (p, s), tr)
        ∧ status_queries tr = N + 1
        ∧ sleeps tr = N + 1
        ∧ time_slept tr = (N + 1) * pollInterval)
    ∧ (∀ flow_input ident u,
        getitem ident "preferred_username" = Ok u →
        ∃ tr, Main.run_cell h fuel flow_id flow_scope flow_input ident = (Ret p, tr)
              ∧ status_queries tr = N + 1
              ∧ sleeps tr = N + 1
              ∧ time_slept tr = (N + 1) * 5)
    ∧ (∀ flow_input,
        ∃ tr, Variant.run_cell h fuel flow_id flow_scope flow_input = (Ret p, tr)
              ∧ status_queries tr = N + 1
              ∧ sleeps tr = N + 1
              ∧ time_slept tr = (N + 1) * 2).
Proof.
  intros Hrun Haid Hfs Hrep Hp Hs Hterm fuel Hfuel.
  assert (Hloop : ∀ i, ∃ tr,
      awaitCompletion h i flow_id flow_scope aid fuel 0 fa0 (VStr "ACTIVE") = (Ret (p, s), tr)
      ∧ status_queries tr = N + 1 ∧ sleeps tr = N + 1 ∧ time_slept tr = (N + 1) * i).
  { intros i. by apply await_running_then_terminal. }
  split; [exact Hloop|]. split.
  - intros flow_input ident u Hu.
    destruct (Hloop 5) as (tr & Htr & Hq & Hsl & Ht).
    destruct (main_run_cell_returns h flow_id flow_scope flow_input fa0 aid _
                Hrun Haid Hfs fuel ident u p s tr Hu Htr) as (tr' & Hcell & Hq' & Hsl' & Ht').
    exists tr'. repeat split; [done|lia..].
  - intros flow_input.
    destruct (Hloop 2) as (tr & Htr & Hq & Hsl & Ht).
    destruct (variant_run_cell_returns h flow_id flow_scope flow_input fa0 aid _
                Hrun Haid Hfs fuel p s tr Htr) as (tr' & Hcell & Hq' & Hsl' & Ht').
    exists tr'. repeat split; [done|lia..].
Qed.


(** C1, as amended.  When the run starts with a running status and the
    status service then reports a running status exactly [N] times and
    after that a terminal one, the poll loop terminates, it issues [N + 1]
    status queries, and it sleeps [N + 1] times, [(N + 1) * pollInterval]
    seconds in all: the loop sleeps before each query, the last one
    included.  The interval is 5 in the main notebook and 2 in the
    variant. *)
Theorem poll_counts_after_N_running (h : host) (N : nat)
    (flow_id flow_scope fa0 aid p s : value) :
  remote h RunFlow 0 = Ok fa0 →
  getitem fa0 "action_id" = Ok aid →
  getitem fa0 "status" = Ok (VStr "ACTIVE") →
  reports_running h 0 N →
  remote h FlowActionStatus N = Ok p →
  getitem p "status" = Ok s →
  is_active s = false →
  ∀ fuel, N < fuel →
    (∀ pollInterval, ∃ tr,
        awaitCompletion h pollInterval flow_id flow_scope aid fuel 0 fa0 (VStr "ACTIVE")
          = (Ret (p, s), tr)
        ∧ status_queries tr = N + 1
        ∧ sleeps tr = N + 1
        ∧ time_slept tr = (N + 1) * pollInterval)
    ∧ (∀ flow_input ident u,
        getitem ident "preferred_username" = Ok u →
        ∃ tr, Main.run_cell h fuel flow_id flow_scope flow_input ident = (Ret p, tr)
              ∧ status_queries tr = N + 1
              ∧ sleeps tr = N + 1
              ∧ time_slept tr = (N + 1) * 5)
    ∧ (∀ flow_input,
        ∃ tr, Variant.run_cell h fuel flow_id flow_scope flow_input = (Ret p, tr)
              ∧ status_queries tr = N + 1
              ∧ sleeps tr = N + 1
              ∧ time_slept tr = (N + 1) * 2).
Proof. apply run_cells_running_then_terminal. Qed.

Lemma poll_counts_after_N_running_witness :
  ∃ tr, Main.run_cell two_then_succeeded 3 (VStr "flow") (VStr "scope") (VDict [])
          (VDict ["preferred_username" =: VStr "user"])
        = (Ret (status_payload "SUCCEEDED"), tr)
        ∧ status_queries tr = 3
        ∧ sleeps tr = 3
        ∧ time_slept tr = 15.
Proof.
  refine (proj1 (proj2 (poll_counts_after_N_running two_then_succeeded 2 (VStr "flow") (VStr "scope")
            (status_payload "ACTIVE") (VStr "run-1") (status_payload "SUCCEEDED")
            (VStr "SUCCEEDED") eq_refl eq_refl eq_refl _ eq_refl eq_refl eq_refl 3 _))
          (VDict []) (VDict ["preferred_username" =: VStr "user"]) (VStr "user") eq_refl).
  - intros k Hk. destruct k as [|[|k]]; [reflexivity|reflexivity|lia].
  - lia.
Defined.

(** C1 as stated fails.  The service reports [ACTIVE] twice and then
    [SUCCEEDED]; the loop, entered on a running status, makes 3 queries and
    sleeps 15 seconds, so no run has 3 queries and 10 seconds of sleep.
    Counting the running status that [run_flow] reported as one of the two
    does not help: the loop then makes 2 queries and sleeps 10 seconds. *)
Lemma poll_sleep_total_counterexample :
  reports_running two_then_succeeded 0 2
  ∧ reported_status (remote two_then_succeeded FlowActionStatus 2) = Some (VStr "SUCCEEDED")
  ∧ fst (two_then_succeeded_poll 3) = Ret (succeeded_payload, VStr "SUCCEEDED")
  ∧ status_queries (snd (two_then_succeeded_poll 3)) = 3
  ∧ time_slept (snd (two_then_succeeded_poll 3)) = 15
  ∧ (¬ ∃ fuel r tr,
        two_then_succeeded_poll fuel = (Ret r, tr)
        ∧ status_queries tr = 2 + 1
        ∧ time_slept tr = 2 * 5)
  ∧ (¬ ∃ fuel r tr,
        one_then_succeeded_poll fuel = (Ret r, tr)
        ∧ status_queries tr = 2 + 1
        ∧ time_slept tr = 2 * 5).
Proof.
  split; [|split; [|split; [|split; [|split; [|split]]]]]; try reflexivity.
  - intros k Hk. destruct k as [|[|k]]; [reflexivity|reflexivity|lia].
  - intros (fuel & r & tr & Hrun & Hq & Ht).
    pose proof (await_sleeps_queries two_then_succeeded 5 (VStr "flow") (VStr "scope")
                  (VStr "run-1") fuel 0 (status_payload "ACTIVE") (VStr "ACTIVE")) as [_ Hinv].
    cbn zeta in Hinv. fold (two_then_succeeded_poll fuel) in Hinv.
    rewrite Hrun in Hinv. cbn [snd] in Hinv. lia.
  - intros (fuel & r & tr & Hrun & Hq & Ht).
    pose proof (await_sleeps_queries one_then_succeeded 5 (VStr "flow") (VStr "scope")
                  (VStr "run-1") fuel 0 (status_payload "ACTIVE") (VStr "ACTIVE")) as [_ Hinv].
    cbn zeta in Hinv. fold (one_then_succeeded_poll fuel) in Hinv.
    rewrite Hrun in Hinv. cbn [snd] in Hinv. lia.
Qed.

(** C2.  Once a status query has reported anything but a running status,
    the loop makes no further status query and does not sleep again; a
    terminal status seen before the loop keeps the loop from running at
    all; and the status the loop ends on is not a running one. *)
Theorem no_poll_after_terminal (h : host) (pollInterval : nat)
    (flow_id flow_scope aid : value) (fuel polls : nat) (fa fs : value) :
  let loop := awaitCompletion h pollInterval flow_id flow_scope aid fuel polls fa fs in
  (is_active fs = false → loop = (Ret (fa, fs), []))
  ∧ (∀ tr1 e tr2,
      snd loop = tr1 ++ e :: tr2 →
      terminal_observation e = true →
      status_queries tr2 = 0 ∧ sleeps tr2 = 0)
  ∧ (∀ fa' fs', fst loop = Ret (fa', fs') → is_active fs' = false).
Proof.
  intros loop. split; [|split].
  - apply await_terminal.
  - apply await_quiet_after_terminal.
  - apply await_final_status.
Qed.

Lemma no_poll_after_terminal_witness :
  status_queries [Print "Flow status: FAILED"] = 0 ∧ sleeps [Print "Flow status: FAILED"] = 0.
Proof.
  refine (proj1 (proj2 (no_poll_after_terminal one_then_failed 5 (VStr "flow") (VStr "scope") (VStr "run-1")
            7 0 (status_payload "ACTIVE") (VStr "ACTIVE")))
          [Sleep 5;
           Call FlowActionStatus [VStr "flow"; VStr "scope"; VStr "run-1"]
             (Ok (status_payload "ACTIVE"));
           Print "Flow status: ACTIVE";
           Sleep 5]
          (Call FlowActionStatus [VStr "flow"; VStr "scope"; VStr "run-1"]
             (Ok (status_payload "FAILED")))
          [Print "Flow status: FAILED"] eq_refl eq_refl).
Defined.

(** C3.  Whatever the terminal status is ([FAILED] and [CANCELED] as much
    as [SUCCEEDED]), the loop returns the payload that carries it, and so
    do the run cells; nothing is raised.  This holds when the terminal
    status comes from a status query and when [run_flow] itself reports
    it. *)
Theorem terminal_payload_returned (h : host) (pollInterval N : nat)
    (flow_id flow_scope fa0 aid p s : value) :
  reports_running h 0 N →
  remote h FlowActionStatus N = Ok p →
  getitem p "status" = Ok s →
  is_active s = false →
  ∀ fuel, N < fuel →
    fst (awaitCompletion h pollInterval flow_id flow_scope aid fuel 0 fa0 (VStr "ACTIVE"))
      = Ret (p, s)
    ∧ fst (awaitCompletion h pollInterval flow_id flow_scope aid fuel 0 p s) = Ret (p, s)
    ∧ (remote h RunFlow 0 = Ok fa0 →
       getitem fa0 "action_id" = Ok aid →
       getitem fa0 "status" = Ok (VStr "ACTIVE") →
       (∀ flow_input ident u,
          getitem ident "preferred_username" = Ok u →
          fst (Main.run_cell h fuel flow_id flow_scope flow_input ident) = Ret p)
       ∧ (∀ flow_input,
          fst (Variant.run_cell h fuel flow_id flow_scope flow_input) = Ret p)).
Proof.
  intros Hrep Hp Hs Hterm fuel Hfuel. split; [|split].
  - destruct (await_running_then_terminal h pollInterval flow_id flow_scope aid N
                fuel 0 fa0 (VStr "ACTIVE") p s) as (tr & -> & _); done.
  - by rewrite await_terminal.
  - intros Hrun Haid Hfs.
    destruct (run_cells_running_then_terminal h N flow_id flow_scope fa0 aid p s
                Hrun Haid Hfs Hrep Hp Hs Hterm fuel Hfuel) as (_ & Hmain & Hvar).
    split.
    + intros flow_input ident u Hu. by destruct (Hmain flow_input ident u Hu) as (tr & -> & _).
    + intros flow_input. by destruct (Hvar flow_input) as (tr & -> & _).
Qed.

Lemma terminal_payload_returned_witness :
  fst (Main.run_cell one_then_failed 2 (VStr "flow") (VStr "scope") (VDict [])
         (VDict ["preferred_username" =: VStr "user"]))
    = Ret (status_payload "FAILED")
  ∧ fst (Variant.run_cell one_then_canceled 2 (VStr "flow") (VStr "scope") (VDict []))
    = Ret (status_payload "CANCELED").
Proof.
  split.
  - refine (proj1 (proj2 (proj2 (terminal_payload_returned one_then_failed 5 1
              (VStr "flow") (VStr "scope") (status_payload "ACTIVE") (VStr "run-1")
              (status_payload "FAILED") (VStr "FAILED") _ eq_refl eq_refl eq_refl 2 _))
              eq_refl eq_refl eq_refl)
            (VDict []) (VDict ["preferred_username" =: VStr "user"]) (VStr "user") eq_refl).
    + intros k Hk. destruct k as [|k]; [reflexivity|lia].
    + lia.
  - refine (proj2 (proj2 (proj2 (terminal_payload_returned one_then_canceled 2 1
              (VStr "flow") (VStr "scope") (status_payload "ACTIVE") (VStr "run-1")
              (status_payload "CANCELED") (VStr "CANCELED") _ eq_refl eq_refl eq_refl 2 _))
              eq_refl eq_refl eq_refl)
            (VDict [])).
    + intros k Hk. destruct k as [|k]; [reflexivity|lia].
    + lia.
Defined.

(** C4.  The loop has no timeout and no ceiling on attempts: when the run
    starts with a running status and every status query reports a running
    status, no amount of fuel lets the loop return or raise, and with fuel
    [n] it has made [n] queries and slept [n] times. *)
Theorem poll_never_gives_up (h : host) (pollInterval : nat)
    (flow_id flow_scope aid fa : value) :
  (∀ k, reported_status (remote h FlowActionStatus k) = Some (VStr "ACTIVE")) →
  ∀ fuel, ∃ tr,
    awaitCompletion h pollInterval flow_id flow_scope aid fuel 0 fa (VStr "ACTIVE")
      = (OutOfFuel, tr)
    ∧ status_queries tr = fuel
    ∧ sleeps tr = fuel
    ∧ time_slept tr = fuel * pollInterval.
Proof. intros Hall fuel. by apply await_always_running. Qed.

Lemma poll_never_gives_up_witness :
  ∃ tr,
    awaitCompletion always_running 5 (VStr "flow") (VStr "scope") (VStr "run-1") 40 0
      (status_payload "ACTIVE") (VStr "ACTIVE") = (OutOfFuel, tr)
    ∧ status_queries tr = 40
    ∧ sleeps tr = 40
    ∧ time_slept tr = 40 * 5.
Proof.
  exact (poll_never_gives_up always_running 5 (VStr "flow") (VStr "scope") (VStr "run-1")
           (status_payload "ACTIVE") (fun k => eq_refl) 40).
Defined.

(** C9.  A status is a running one only if it is the string [ACTIVE].  On
    any other string, from [run_flow] or from a status query, the loop
    stops there; when [run_flow] already reports another string the loop
    makes no status query and does not sleep, and the run cells perform
    the [run_flow] call and their prints and nothing else. *)
Theorem only_ACTIVE_keeps_polling (h : host) (pollInterval : nat)
    (flow_id flow_scope aid : value) (fuel polls : nat) (fa : value) (s : string) :
  s ≠ "ACTIVE" →
  (∀ v, is_active v = true ↔ v = VStr "ACTIVE")
  ∧ awaitCompletion h pollInterval flow_id flow_scope aid fuel polls fa (VStr s)
      = (Ret (fa, VStr s), [])
  ∧ (∀ p,
      remote h FlowActionStatus polls = Ok p →
      getitem p "status" = Ok (VStr s) →
      awaitCompletion h pollInterval flow_id flow_scope aid (S fuel) polls fa (VStr "ACTIVE")
        = (Ret (p, VStr s),
           [Sleep pollInterval;
            Call FlowActionStatus [flow_id; flow_scope; aid] (Ok p);
            Print ("Flow status: " +:+ py_str h (VStr s))]))
  ∧ (remote h RunFlow 0 = Ok fa →
     getitem fa "action_id" = Ok aid →
     getitem fa "status" = Ok (VStr s) →
     (∀ flow_input ident u,
        getitem ident "preferred_username" = Ok u →
        ∃ tr, Main.run_cell h fuel flow_id flow_scope flow_input ident = (Ret fa, tr)
              ∧ status_queries tr = 0 ∧ sleeps tr = 0 ∧ remote_calls tr = 1)
     ∧ (∀ flow_input,
        ∃ tr, Variant.run_cell h fuel flow_id flow_scope flow_input = (Ret fa, tr)
              ∧ status_queries tr = 0 ∧ sleeps tr = 0 ∧ remote_calls tr = 1)).
Proof.
  intros Hs. pose proof (is_active_other s Hs) as Hterm.
  split; [exact is_active_spec|]. split; [by apply await_terminal|]. split.
  - intros p Hp Hps.
    rewrite (await_step h _ _ _ _ fuel polls fa (VStr "ACTIVE") p (VStr s) eq_refl Hp Hps).
    by rewrite await_terminal.
  - intros Hrun Haid Hfs. split.
    + intros flow_input ident u Hu.
      rewrite (main_run_cell_eq h flow_id flow_scope flow_input fa aid (VStr s)
                 Hrun Haid Hfs fuel ident u Hu).
      rewrite await_terminal by done. by eexists.
    + intros flow_input.
      rewrite (variant_run_cell_eq h flow_id flow_scope flow_input fa aid (VStr s)
                 Hrun Haid Hfs fuel).
      rewrite await_terminal by done. by eexists.
Qed.

Lemma only_ACTIVE_keeps_polling_witness :
  awaitCompletion always_running 5 (VStr "flow") (VStr "scope") (VStr "run-1") 9 0
    (status_payload "active") (VStr "active")
  = (Ret (status_payload "active", VStr "active"), []).
Proof.
  refine (proj1 (proj2 (only_ACTIVE_keeps_polling always_running 5 (VStr "flow") (VStr "scope")
            (VStr "run-1") 9 0 (status_payload "active") "active" _))).
  discriminate.
Defined.

(** ** Reading a field out of the final payload *)




(** ** The flow definitions *)

Lemma flow_path_two_steps (D : value) (a b : string) (sa sb : value) :
  a ≠ b →
  start_at D = Some a →
  states_of D = [(KStr a, sa); (KStr b, sb)] →
  is_end sa = false → next_of sa = Some b → is_end sb = true →
  flow_path D [a; b] = true ∧ ∀ q, flow_path D q = true → q = [a; b].
Proof.
  intros Hab Hstart Hstates Hea Hna Heb.
  assert (Hba : String.eqb b a = false) by (apply String.eqb_neq; congruence).
  split.
  - unfold flow_path. rewrite Hstart, Hstates. cbn.
    by rewrite !String.eqb_refl, Hba, Hea, Hna, Heb, !String.eqb_refl.
  - intros q. unfold flow_path. rewrite Hstart, Hstates.
    destruct q as [|x q]; [done|].
    intros [Hx Hq]%andb_true_iff. apply String.eqb_eq in Hx as ->.
    destruct q as [|y q]; cbn in Hq; rewrite String.eqb_refl in Hq.
    { by rewrite Hea in Hq. }
    rewrite Hea, Hna in Hq. cbn in Hq.
    destruct (String.eqb b y) eqn:Hy; [|done]. apply String.eqb_eq in Hy as <-.
    destruct q as [|z q]; [done|].
    cbn in Hq. rewrite Hba, String.eqb_refl in Hq. by rewrite Heb in Hq.
Qed.

(** C6.  Both flow definitions are well formed: the step names are
    distinct, [StartAt] marks exactly one step, every ["Next"] names a
    step, every step that is not terminal has such a ["Next"], and exactly
    one path leads from the start to a terminal step, [MoveFiles] then
    [SetPermission]. *)
Theorem flow_definitions_well_formed :
  well_formed_flow Main.flow_definition
  ∧ well_formed_flow Variant.flow_definition
  ∧ start_steps Main.flow_definition = [KStr "MoveFiles"]
  ∧ start_steps Variant.flow_definition = [KStr "MoveFiles"]
  ∧ flow_path Main.flow_definition ["MoveFiles"; "SetPermission"] = true
  ∧ flow_path Variant.flow_definition ["MoveFiles"; "SetPermission"] = true.
Proof.
  assert (Hnodup : NoDup [KStr "MoveFiles"; KStr "SetPermission"]).
  { apply NoDup_cons. split; [|apply NoDup_singleton].
    intros Hin%list_elem_of_singleton. discriminate. }
  repeat split; try reflexivity; try exact Hnodup.
  - exists ["MoveFiles"; "SetPermission"].
    eapply flow_path_two_steps; [|reflexivity..]. discriminate.
  - exists ["MoveFiles"; "SetPermission"].
    eapply flow_path_two_steps; [|reflexivity..]. discriminate.
Qed.

(** C7.  Every placeholder of either flow definition (the value of a
    ["Parameters"] key ending in [.$], at any depth) is a path under
    [$.input] that selects an entry of the run input the notebook builds,
    whoever the user is. *)
Theorem placeholders_bound_by_flow_input (h : host) (identity_id : value) :
  forallb (bound_in (Main.flow_input h identity_id)) (flow_placeholders Main.flow_definition)
    = true
  ∧ forallb (bound_in (Variant.flow_input identity_id))
      (flow_placeholders Variant.flow_definition) = true
  ∧ flow_placeholders Main.flow_definition =
      [VStr "$.input.source_endpoint_id"; VStr "$.input.destination_endpoint_id";
       VStr "$.input.source_path"; VStr "$.input.destination_path";
       VStr "$.input.destination_endpoint_id"; VStr "$.input.destination_path";
       VStr "$.input.principal"; VStr "$.input.principal_type"]
  ∧ flow_placeholders Variant.flow_definition = flow_placeholders Main.flow_definition.
Proof. repeat split; reflexivity. Qed.

(** ** Token loading *)




(** With the bundle in place the notebooks do reach the services. *)
Example provisioned_notebooks_call_out :
  fst (Main.notebook first_run 10) = Ret tt
  ∧ remote_calls (snd (Main.notebook first_run 10)) = 11
  ∧ fst (Variant.notebook first_run 10) = Ret tt
  ∧ remote_calls (snd (Variant.notebook first_run 10)) = 7.
Proof. repeat split; vm_compute; reflexivity. Qed.

(** ** The scope cache *)

Lemma dict_get_set_eq (k : key) (v : value) (kvs : list (key * value)) :
  dict_get k (dict_set k v kvs) = Some v.
Proof.
  induction kvs as [|[k' v'] kvs IH]; cbn.
  - by rewrite key_eqb_refl.
  - destruct (key_eqb k k') eqn:Hk; cbn; by rewrite Hk.
Qed.

Lemma authorize_cell_cached (h : host) (flow_scope : value) (k : key)
    (saved_flow_scopes : list (key * value)) (entry : value) :
  hash_key flow_scope = Ok k →
  dict_get k saved_flow_scopes = Some entry →
  Main.authorize_cell h flow_scope saved_flow_scopes = (Ret saved_flow_scopes, []).
Proof. intros Hk Hget. unfold Main.authorize_cell. rewrite Hk. cbn. by rewrite Hget. Qed.

(** What the authorization cell leaves in the cache holds the scope. *)
Lemma authorize_cell_caches (h : host) (flow_scope : value) (k : key)
    (saved_flow_scopes saved' : list (key * value)) (tr : list event) :
  hash_key flow_scope = Ok k →
  Main.authorize_cell h flow_scope saved_flow_scopes = (Ret saved', tr) →
  ∃ entry, dict_get k saved' = Some entry.
Proof.
  intros Hk. unfold Main.authorize_cell. rewrite Hk. cbn [lift bind ret app].
  destruct (dict_get k saved_flow_scopes) as [entry|] eqn:Hget.
  - intros [= <- _]. eauto.
  - unfold call, input. cbn [lift bind ret emit print app].
    destruct (remote h OAuth2ExchangeCode 0) as [token_response|e]; [|done].
    cbn [lift bind ret emit print app].
    destruct (subscript token_response flow_scope) as [entry|e]; [|done].
    cbn [lift bind ret emit print app]. intros [= <- _].
    exists entry. apply dict_get_set_eq.
Qed.

(** C10.  When the flow's scope is already a key of [saved_flow_scopes] the
    authorization cell does nothing: no prompt, no token exchange, the
    cache handed back as it was; so a second run of the cell after a first
    one is such a no-op.  [get_flow_authorizer] hands the cache back as it
    was, and its result depends on the cache through the entry of the
    requested scope alone, not on [flow_url] or [client_id]. *)
Theorem authorization_is_idempotent (h : host) (flow_scope : value) (k : key)
    (saved_flow_scopes : list (key * value)) :
  hash_key flow_scope = Ok k →
  (∀ entry, dict_get k saved_flow_scopes = Some entry →
     Main.authorize_cell h flow_scope saved_flow_scopes = (Ret saved_flow_scopes, []))
  ∧ (∀ saved' tr,
       Main.authorize_cell h flow_scope saved_flow_scopes = (Ret saved', tr) →
       Main.authorize_cell h flow_scope saved' = (Ret saved', []))
  ∧ (∀ flow_url client_id,
       snd (Main.get_flow_authorizer flow_url flow_scope client_id saved_flow_scopes)
         = saved_flow_scopes)
  ∧ (∀ other flow_url flow_url' client_id client_id',
       dict_get k other = dict_get k saved_flow_scopes →
       fst (Main.get_flow_authorizer flow_url flow_scope client_id other)
         = fst (Main.get_flow_authorizer flow_url' flow_scope client_id' saved_flow_scopes)).
Proof.
  intros Hk. split; [|split; [|split]].
  - intros entry. by apply authorize_cell_cached.
  - intros saved' tr Hcell.
    destruct (authorize_cell_caches h flow_scope k _ _ _ Hk Hcell) as [entry Hentry].
    by eapply authorize_cell_cached.
  - done.
  - intros other flow_url flow_url' client_id client_id' Hsame.
    unfold Main.get_flow_authorizer, subscript. rewrite Hk. cbn [fst getitem].
    by rewrite Hsame.
Qed.

Lemma authorization_is_idempotent_witness :
  Main.authorize_cell first_run (VStr "scope-1")
    ["scope-1" =: VDict ["access_token" =: VStr "flow-token"]]
  = (Ret ["scope-1" =: VDict ["access_token" =: VStr "flow-token"]], []).
Proof.
  exact (proj1 (authorization_is_idempotent first_run (VStr "scope-1") (KStr "scope-1")
                  ["scope-1" =: VDict ["access_token" =: VStr "flow-token"]] eq_refl)
           (VDict ["access_token" =: VStr "flow-token"]) eq_refl).
Defined.

(** ** Sequencing *)

Lemma fst_bind {A B} (m : M A) (k : A → M B) :
  fst (bind m k) =
    match fst m with
    | Ret a => fst (k a)
    | Raise e => Raise e
    | OutOfFuel => OutOfFuel
    end.
Proof. destruct m as [[a|e|] tr]; cbn; [|done..]. by destruct (k a). Qed.

Lemma snd_bind {A B} (m : M A) (k : A → M B) :
  snd (bind m k) =
    snd m ++ match fst m with
             | Ret a => snd (k a)
             | _ => []
             end.
Proof.
  destruct m as [[a|e|] tr]; cbn; [|by rewrite app_nil_r..]. by destruct (k a).
Qed.

Lemma called_app (tr1 tr2 : list event) : called (tr1 ++ tr2) = called tr1 ++ called tr2.
Proof. apply omap_app. Qed.

Lemma remote_calls_called (tr : list event) : remote_calls tr = length (called tr).
Proof.
  unfold remote_calls, called. induction tr as [|[] tr IH]; cbn in *; by rewrite ?IH.
Qed.

Lemma status_queries_called (tr : list event) :
  status_queries tr = length (List.filter (fun op => bool_decide (op = FlowActionStatus)) (called tr)).
Proof.
  unfold status_queries, called.
  induction tr as [|[secs|op args r|line|prompt answer] tr IH]; cbn in *; try done.
  destruct op; cbn; by rewrite IH.
Qed.

(** *** Pacing *)

Section Paced.
Context {A B : Type}.
Variable secs : nat.

Lemma paced_bind (m : M A) (k : A → M B) :
  paced secs m → (∀ a, fst m = Ret a → paced secs (k a)) → paced secs (bind m k).
Proof.
  unfold paced. intros [Hs Ht] Hk. rewrite snd_bind.
  rewrite sleeps_app, status_queries_app, time_slept_app, Hs, Ht.
  destruct (fst m) as [a|e|] eqn:Hm; [|cbn; lia..].
  destruct (Hk a eq_refl) as [-> ->]. lia.
Qed.

Lemma paced_silent (m : M A) : snd m = [] → paced secs m.
Proof. unfold paced. by intros ->. Qed.

End Paced.

Lemma paced_lift {A} secs (r : result A) : paced secs (lift r).
Proof. by destruct r. Qed.

Lemma paced_print secs line : paced secs (print line).
Proof. done. Qed.

Lemma paced_call h secs op n args : op ≠ FlowActionStatus → paced secs (call h op n args).
Proof.
  intros Hop. unfold paced, call. rewrite snd_bind. cbn.
  destruct (remote h op n); destruct op; done.
Qed.

Lemma paced_input h secs prompt : paced secs (input h prompt).
Proof. done. Qed.

Lemma paced_load_tokens h secs : paced secs (load_tokens h).
Proof.
  unfold load_tokens. destruct (os_getenv h "GLOBUS_DATA"); [|done].
  repeat (apply paced_bind; [|intros]); apply paced_lift.
Qed.

Lemma paced_awaitCompletion h secs flow_id flow_scope aid fuel polls fa fs :
  paced secs (awaitCompletion h secs flow_id flow_scope aid fuel polls fa fs).
Proof. apply await_sleeps_queries. Qed.

(** Steps through the statements of a cell. *)
Ltac paced_step :=
  lazymatch goal with
  | |- paced _ (bind _ _) => apply paced_bind; [|intros ? _]
  | |- paced _ (lift _) => apply paced_lift
  | |- paced _ (print _) => apply paced_print
  | |- paced _ (ret _) => by apply paced_silent
  | |- paced _ (call _ _ _ _) => by apply paced_call
  | |- paced _ (input _ _) => apply paced_input
  | |- paced _ (load_tokens _) => apply paced_load_tokens
  | |- paced _ (awaitCompletion _ _ _ _ _ _ _ _ _) => apply paced_awaitCompletion
  | |- paced _ (match ?x with (_, _) => _ end) => destruct x
  | |- paced _ (match ?x with Some _ => _ | None => _ end) => destruct x
  end.

Lemma paced_main_notebook h fuel : paced 5 (Main.notebook h fuel).
Proof.
  unfold Main.notebook, Main.tokens_cell, Main.deploy_cell, Main.identity_cell,
    Main.authorize_cell, Main.run_cell, Main.view_cell, Main.cleanup_cell.
  repeat paced_step.
Qed.

Lemma paced_variant_notebook h fuel : paced 2 (Variant.notebook h fuel).
Proof.
  unfold Variant.notebook, Variant.tokens_cell, Variant.deploy_cell,
    Variant.run_cell, Variant.cleanup_cell.
  repeat paced_step.
Qed.

(** *** Protocols *)

Lemma consume_app (p : protocol) (ops1 ops2 : list api) :
  consume p (ops1 ++ ops2) =
    match consume p ops1 with
    | Some q => consume q ops2
    | None => None
    end.
Proof.
  revert p. induction ops1 as [|op ops1 IH]; intros p; cbn; [done|].
  by destruct (step p op).
Qed.

Section Moves.
Context {A B : Type}.

Lemma moves_bind (m : M A) (k : A → M B) (p q r : protocol) :
  moves m p q → (∀ a, fst m = Ret a → moves (k a) q r) → moves (bind m k) p r.
Proof.
  intros (q' & Hq' & Hret) Hk. unfold moves.
  rewrite snd_bind, fst_bind, called_app, consume_app, Hq'.
  destruct (fst m) as [a|e|] eqn:Hm; cbn [called omap]; [|by eexists..].
  rewrite (Hret a eq_refl). apply Hk. done.
Qed.

Lemma moves_silent (m : M A) (p : protocol) :
  snd m = [] → (∀ a, fst m = Ret a → True) → moves m p p.
Proof. intros Htr _. exists p. by rewrite Htr. Qed.

End Moves.

Lemma moves_lift {A} (r : result A) p : moves (lift r) p p.
Proof. exists p. by destruct r. Qed.

Lemma moves_ret {A} (a : A) p : moves (ret a) p p.
Proof. by exists p. Qed.

Lemma moves_print line p : moves (print line) p p.
Proof. by exists p. Qed.

Lemma moves_input h prompt p : moves (input h prompt) p p.
Proof. by exists p. Qed.

Lemma moves_call h op n args p q : step p op = Some q → moves (call h op n args) p q.
Proof.
  intros Hstep. exists q. unfold call. rewrite snd_bind, fst_bind. cbn.
  destruct (remote h op n); cbn; by rewrite Hstep.
Qed.

Lemma moves_load_tokens h p : moves (load_tokens h) p p.
Proof.
  unfold load_tokens. destruct (os_getenv h "GLOBUS_DATA"); [|by exists p].
  repeat (eapply moves_bind; [|intros ? _]); apply moves_lift.
Qed.

Lemma moves_awaitCompletion h secs flow_id flow_scope aid rest :
  ∀ fuel polls fa fs,
    moves (awaitCompletion h secs flow_id flow_scope aid fuel polls fa fs)
      (Many FlowActionStatus rest) (Many FlowActionStatus rest).
Proof.
  induction fuel as [|fuel IH]; intros polls fa fs; cbn [awaitCompletion];
    destruct (is_active fs); try by eexists.
  eapply moves_bind; [by eexists|intros ? _].
  eapply moves_bind; [apply moves_call; cbn; by rewrite decide_True|intros ? _].
  eapply moves_bind; [apply moves_lift|intros ? _].
  eapply moves_bind; [apply moves_print|intros ? _].
  apply IH.
Qed.

(** Steps through the statements of a cell, keeping track of the protocol. *)
Ltac moves_step :=
  lazymatch goal with
  | |- moves (bind _ _) _ _ => eapply moves_bind; [|intros ? _]
  | |- moves (lift _) _ _ => apply moves_lift
  | |- moves (print _) _ _ => apply moves_print
  | |- moves (ret _) _ _ => apply moves_ret
  | |- moves (call _ _ _ _) _ _ => apply moves_call; reflexivity
  | |- moves (input _ _) _ _ => apply moves_input
  | |- moves (load_tokens _) _ _ => apply moves_load_tokens
  | |- moves (awaitCompletion _ _ _ _ _ _ _ _ _) _ _ => apply moves_awaitCompletion
  | |- moves (match ?x with (_, _) => _ end) _ _ => destruct x
  | |- moves (match dict_get _ [] with Some _ => _ | None => _ end) _ _ => cbn [dict_get]
  end.

Lemma main_tokens_cell_cache h tokens saved :
  fst (Main.tokens_cell h) = Ret (tokens, saved) → saved = [].
Proof.
  unfold Main.tokens_cell. rewrite fst_bind.
  destruct (fst (load_tokens h)) as [t|e|]; [|done..].
  rewrite fst_bind. cbn [print emit fst]. rewrite fst_bind.
  destruct (getpath t [KStr "flows.globus.org"; KStr "access_token"]);
    cbn [lift ret raise fst]; [|done].
  by intros [= _ <-].
Qed.

Lemma moves_main_notebook h fuel : moves (Main.notebook h fuel) main_protocol Stop.
Proof.
  unfold Main.notebook.
  eapply moves_bind.
  { unfold Main.tokens_cell. repeat moves_step. }
  intros [tokens saved] ->%main_tokens_cell_cache.
  unfold Main.deploy_cell, Main.identity_cell,
    Main.authorize_cell, Main.run_cell, Main.view_cell, Main.cleanup_cell, main_protocol.
  repeat moves_step.
Qed.


(** ** More on the poll loop *)

Section PollMore.
Variable h : host.
Variables (pollInterval : nat) (flow_id flow_scope flow_action_id : value).

Local Abbreviation await := (awaitCompletion h pollInterval flow_id flow_scope flow_action_id).



(** Every status query comes right after a sleep of [pollInterval]. *)
Lemma await_sleeps_before_query : ∀ fuel polls fa fs tr1 e tr2,
  snd (await fuel polls fa fs) = tr1 ++ e :: tr2 →
  is_status_query e = true →
  ∃ tr0, tr1 = tr0 ++ [Sleep pollInterval].
Proof.
  induction fuel as [|fuel IH]; intros polls fa fs tr1 e tr2 Htr He.
  - destruct (is_active fs) eqn:Hfs.
    + rewrite await_no_fuel in Htr by done. by destruct tr1.
    + rewrite await_terminal in Htr by done. by destruct tr1.
  - destruct (is_active fs) eqn:Hfs;
      [|rewrite await_terminal in Htr by done; by destruct tr1].
    destruct (remote h FlowActionStatus polls) as [p|ex] eqn:Hp.
    + destruct (getitem p "status") as [s|ex] eqn:Hs.
      * rewrite (await_step _ _ _ _ _ _ _ _ _ _ _ Hfs Hp Hs) in Htr. cbn [snd] in Htr.
        destruct tr1 as [|e1 [|e2 [|e3 tr1]]]; simplify_eq/=.
        -- by exists [].
        -- match goal with
           | Hrest : snd _ = tr1 ++ e :: tr2 |- _ =>
               destruct (IH _ _ _ _ _ _ Hrest He) as [tr0 ->]
           end.
           by exists (Sleep pollInterval
                        :: Call FlowActionStatus [flow_id; flow_scope; flow_action_id] (Ok p)
                        :: Print ("Flow status: " +:+ py_str h s) :: tr0).
      * rewrite (await_no_status _ _ _ _ _ _ _ _ _ _ _ Hfs Hp Hs) in Htr. cbn [snd] in Htr.
        destruct tr1 as [|e1 [|e2 [|e3 tr1]]]; simplify_eq/=. by exists [].
    + rewrite (await_remote_error _ _ _ _ _ _ _ _ _ _ Hfs Hp) in Htr. cbn [snd] in Htr.
      destruct tr1 as [|e1 [|e2 [|e3 tr1]]]; simplify_eq/=. by exists [].
Qed.

End PollMore.

(** ** Further properties of the poll loop and the run cells *)

(** X1.  Sleeping is tied to polling.  In any run of the loop, whatever the
    status service answers, there is one sleep per status query and the time
    slept is the number of queries times the interval; and a whole run of
    either notebook sleeps nowhere else: 5 seconds per status query in the
    main notebook, 2 in the variant. *)
Theorem sleeps_only_to_poll (h : host) (fuel : nat) :
  (∀ secs flow_id flow_scope aid polls fa fs,
     paced secs (awaitCompletion h secs flow_id flow_scope aid fuel polls fa fs))
  ∧ sleeps (snd (Main.notebook h fuel)) = status_queries (snd (Main.notebook h fuel))
  ∧ time_slept (snd (Main.notebook h fuel)) = status_queries (snd (Main.notebook h fuel)) * 5
  ∧ sleeps (snd (Variant.notebook h fuel)) = status_queries (snd (Variant.notebook h fuel))
  ∧ time_slept (snd (Variant.notebook h fuel))
      = status_queries (snd (Variant.notebook h fuel)) * 2.
Proof.
  split; [intros; apply paced_awaitCompletion|].
  destruct (paced_main_notebook h fuel) as [Hs Ht].
  destruct (paced_variant_notebook h fuel) as [Hs' Ht'].
  done.
Qed.

(** X2.  The loop never queries the status without having slept first: in
    the trace of any run, the event before a status query is a sleep of the
    poll interval. *)
Theorem poll_sleeps_before_each_query (h : host) (pollInterval : nat)
    (flow_id flow_scope aid : value) (fuel polls : nat) (fa fs : value)
    (tr1 tr2 : list event) (e : event) :
  snd (awaitCompletion h pollInterval flow_id flow_scope aid fuel polls fa fs)
    = tr1 ++ e :: tr2 →
  is_status_query e = true →
  ∃ tr0, tr1 = tr0 ++ [Sleep pollInterval].
Proof. apply await_sleeps_before_query. Qed.

Lemma poll_sleeps_before_each_query_witness :
  ∃ tr0,
    [Sleep 5;
     Call FlowActionStatus [VStr "flow"; VStr "scope"; VStr "run-1"]
       (Ok (status_payload "ACTIVE"));
     Print "Flow status: ACTIVE";
     Sleep 5]
    = tr0 ++ [Sleep 5].
Proof.
  exact (poll_sleeps_before_each_query one_then_failed 5 (VStr "flow") (VStr "scope")
           (VStr "run-1") 7 0 (status_payload "ACTIVE") (VStr "ACTIVE")
           [Sleep 5;
            Call FlowActionStatus [VStr "flow"; VStr "scope"; VStr "run-1"]
              (Ok (status_payload "ACTIVE"));
            Print "Flow status: ACTIVE";
            Sleep 5]
           [Print "Flow status: FAILED"]
           (Call FlowActionStatus [VStr "flow"; VStr "scope"; VStr "run-1"]
              (Ok (status_payload "FAILED")))
           eq_refl eq_refl).
Defined.



(** X4.  A run that cannot be started is not polled.  When [run_flow]
    raises, or its response lacks ["action_id"] or ["status"], the run cells
    end with that exception after the one [run_flow] call, without a sleep
    or a status query; and the main notebook's cell does not even call
    [run_flow] when the identity has no ["preferred_username"]. *)
Theorem run_cell_fails_before_polling (h : host) (fuel : nat)
    (flow_id flow_scope flow_input : value) (e : exn) :
  (remote h RunFlow 0 = Err e
   ∨ ∃ fa, remote h RunFlow 0 = Ok fa
           ∧ (getitem fa "action_id" = Err e
              ∨ (∃ aid, getitem fa "action_id" = Ok aid) ∧ getitem fa "status" = Err e)) →
  (∀ ident u,
     getitem ident "preferred_username" = Ok u →
     ∃ tr, Main.run_cell h fuel flow_id flow_scope flow_input ident = (Raise e, tr)
           ∧ called tr = [RunFlow] ∧ sleeps tr = 0)
  ∧ (∃ tr, Variant.run_cell h fuel flow_id flow_scope flow_input = (Raise e, tr)
           ∧ called tr = [RunFlow] ∧ sleeps tr = 0)
  ∧ (∀ ident e',
       getitem ident "preferred_username" = Err e' →
       Main.run_cell h fuel flow_id flow_scope flow_input ident = (Raise e', [])).
Proof.
  intros Hfail. split; [|split].
  - intros ident u Hu. unfold Main.run_cell, call. rewrite Hu. cbn [lift bind ret].
    destruct Hfail as [->|(fa & -> & [Haid|[[aid Haid] Hs]])];
      cbn [lift bind ret raise emit print app]; rewrite ?Haid;
      cbn [lift bind ret raise emit print app]; rewrite ?Hs; by eexists.
  - unfold Variant.run_cell, call.
    destruct Hfail as [->|(fa & -> & [Haid|[[aid Haid] Hs]])];
      cbn [lift bind ret raise emit print app]; rewrite ?Haid;
      cbn [lift bind ret raise emit print app]; rewrite ?Hs; by eexists.
  - intros ident e' Hu. unfold Main.run_cell. by rewrite Hu.
Qed.

Lemma run_cell_fails_before_polling_witness :
  ∃ tr, Variant.run_cell run_refused 9 (VStr "flow") (VStr "scope") (VDict [])
          = (Raise (LibraryError "403"), tr)
        ∧ called tr = [RunFlow] ∧ sleeps tr = 0.
Proof.
  exact (proj1 (proj2 (run_cell_fails_before_polling run_refused 9 (VStr "flow")
                         (VStr "scope") (VDict []) (LibraryError "403")
                         (or_introl eq_refl)))).
Defined.

(** ** The order of remote calls *)

(** X5.  Whatever the services answer and however long the run is polled,
    the main notebook calls them in this order: deploy the flow, look up
    the identity, exchange the authorization code, start the run, query its
    status any number of times, delete the access rule, fetch a submission
    id, activate the endpoint, submit the delete.  A run that stops early
    has made an initial part of these calls, a run that returns all of
    them. *)
Theorem main_notebook_call_order (h : host) (fuel : nat) :
  moves (Main.notebook h fuel) main_protocol Stop.
Proof. apply moves_main_notebook. Qed.


(** The protocols do tell orders apart. *)
Example protocol_examples :
  consume main_protocol (called (snd (Main.notebook first_run 10))) = Some Stop
  ∧ consume main_protocol [DeployFlow; OAuth2UserInfo; RunFlow] = None
  ∧ consume main_protocol [DeployFlow; OAuth2UserInfo; OAuth2ExchangeCode; RunFlow;
                           FlowActionStatus; SubmitDelete] = None
  ∧ consume variant_protocol [OAuth2UserInfo; DeployFlow; RunFlow; DeleteEndpointAclRule;
                              FlowActionStatus] = None.
Proof. repeat split; vm_compute; reflexivity. Qed.

(** ** More on the scope cache *)

Lemma dict_get_None (k : key) (kvs : list (key * value)) :
  dict_get k kvs = None ↔ k ∉ List.map fst kvs.
Proof.
  induction kvs as [|[k' v] kvs IH]; cbn.
  - split; [intros _; apply not_elem_of_nil|done].
  - rewrite not_elem_of_cons, <- IH. destruct (key_eqb k k') eqn:Hk.
    + apply key_eqb_eq in Hk. split; [done|]. by intros [? _].
    + split; [|by intros [_ ?]]. intros ?. split; [|done].
      intros ->. by rewrite key_eqb_refl in Hk.
Qed.

(** Storing under a key the dict does not have appends the item. *)
Lemma dict_set_fresh (k : key) (v : value) (kvs : list (key * value)) :
  dict_get k kvs = None → dict_set k v kvs = kvs ++ [(k, v)].
Proof.
  induction kvs as [|[k' v'] kvs IH]; cbn; [done|].
  destruct (key_eqb k k'); [done|]. intros Hget. by rewrite IH.
Qed.

Lemma dict_get_app_fresh (k k' : key) (v : value) (kvs : list (key * value)) :
  dict_get k' (kvs ++ [(k, v)]) =
    match dict_get k' kvs with
    | Some v' => Some v'
    | None => if key_eqb k' k then Some v else None
    end.
Proof.
  induction kvs as [|[k0 v0] kvs IH]; cbn; [done|].
  by destruct (key_eqb k' k0).
Qed.

Lemma getitem_VDict (kvs : list (key * value)) (k : key) :
  getitem (VDict kvs) k =
    match dict_get k kvs with
    | Some v => Ok v
    | None => Err (KeyError k)
    end.
Proof. done. Qed.

(** How the authorization cell can return. *)
Lemma authorize_cell_ret_inv (h : host) (flow_scope : value)
    (saved saved' : list (key * value)) :
  fst (Main.authorize_cell h flow_scope saved) = Ret saved' →
  ∃ k, hash_key flow_scope = Ok k
       ∧ ((∃ entry, dict_get k saved = Some entry) ∧ saved' = saved
          ∨ dict_get k saved = None
            ∧ ∃ token_response entry,
                remote h OAuth2ExchangeCode 0 = Ok token_response
                ∧ subscript token_response flow_scope = Ok entry
                ∧ saved' = saved ++ [(k, entry)]).
Proof.
  unfold Main.authorize_cell. rewrite fst_bind.
  destruct (hash_key flow_scope) as [k|e]; [|done]. cbn [lift ret fst].
  intros Hret. exists k. split; [done|].
  destruct (dict_get k saved) as [entry|] eqn:Hget.
  - left. split; [by eexists|]. by injection Hret.
  - right. split; [done|]. revert Hret. unfold call, input.
    cbn [lift bind ret emit print app].
    destruct (remote h OAuth2ExchangeCode 0) as [token_response|e] eqn:Hresp; [|done].
    cbn [lift bind ret emit print app].
    destruct (subscript token_response flow_scope) as [entry|e] eqn:Hentry; [|done].
    cbn [lift bind ret emit print app fst]. intros [= <-].
    exists token_response, entry. by rewrite dict_set_fresh.
Qed.

(** X7.  On a scope that is not cached the authorization cell shows the
    login link, prompts once, exchanges the code that was typed, and appends
    the scope's entry of the token response to the cache; the scope is then
    cached and the entries that were there are as before. *)
Theorem authorize_cell_fresh_scope (h : host) (flow_scope : value) (k : key)
    (saved_flow_scopes : list (key * value)) (token_response entry : value) :
  hash_key flow_scope = Ok k →
  dict_get k saved_flow_scopes = None →
  remote h OAuth2ExchangeCode 0 = Ok token_response →
  subscript token_response flow_scope = Ok entry →
  let cache := saved_flow_scopes ++ [(k, entry)] in
  Main.authorize_cell h flow_scope saved_flow_scopes =
    (Ret cache,
     [Print ("Login Here:" +:+ nl +:+ nl +:+ authorize_url h Main.client_id flow_scope);
      Input "Authorization Code: " (stdin h);
      Call OAuth2ExchangeCode [VStr (stdin h)] (Ok token_response);
      Print (json_dumps h (VDict cache))])
  ∧ dict_get k cache = Some entry
  ∧ ∀ k', k' ≠ k → dict_get k' cache = dict_get k' saved_flow_scopes.
Proof.
  intros Hk Hget Hresp Hentry cache. split; [|split].
  - unfold Main.authorize_cell, call, input. rewrite Hk. cbn [lift bind ret app].
    rewrite Hget, Hresp. cbn [lift bind ret emit print app]. rewrite Hentry.
    cbn [lift bind ret emit print app]. by rewrite dict_set_fresh.
  - unfold cache. by rewrite dict_get_app_fresh, Hget, key_eqb_refl.
  - intros k' Hne. unfold cache. rewrite dict_get_app_fresh.
    destruct (dict_get k' saved_flow_scopes); [done|].
    destruct (key_eqb k' k) eqn:Heq; [|done]. by apply key_eqb_eq in Heq.
Qed.

Lemma authorize_cell_fresh_scope_witness :
  fst (Main.authorize_cell first_run (VStr "scope-1") ["scope-0" =: VDict []])
  = Ret ["scope-0" =: VDict []; "scope-1" =: VDict ["access_token" =: VStr "flow-token"]].
Proof.
  exact (f_equal fst (proj1 (authorize_cell_fresh_scope first_run (VStr "scope-1")
           (KStr "scope-1") ["scope-0" =: VDict []]
           (VDict ["scope-1" =: VDict ["access_token" =: VStr "flow-token"]])
           (VDict ["access_token" =: VStr "flow-token"])
           eq_refl eq_refl eq_refl eq_refl))).
Defined.

(** X8.  The authorization cell never replaces or drops a cached entry:
    the cache it returns starts with the cache it was given, every scope
    cached before has the entry it had, and the keys stay distinct. *)
Theorem authorize_cell_keeps_cache (h : host) (flow_scope : value)
    (saved_flow_scopes saved' : list (key * value)) :
  fst (Main.authorize_cell h flow_scope saved_flow_scopes) = Ret saved' →
  saved_flow_scopes `prefix_of` saved'
  ∧ (∀ k entry, dict_get k saved_flow_scopes = Some entry → dict_get k saved' = Some entry)
  ∧ (NoDup (List.map fst saved_flow_scopes) → NoDup (List.map fst saved')).
Proof.
  intros (k & Hk & [[_ ->]|(Hget & tr & entry & _ & _ & ->)])%authorize_cell_ret_inv.
  - done.
  - split; [by apply prefix_app_r|]. split.
    + intros k' entry' Hk'. by rewrite dict_get_app_fresh, Hk'.
    + intros Hnodup. rewrite List.map_app. cbn [List.map fst].
      apply NoDup_app. split; [done|]. split; [|apply NoDup_singleton].
      intros k' Hin ->%list_elem_of_singleton. by apply dict_get_None in Hget.
Qed.

Lemma authorize_cell_keeps_cache_witness :
  dict_get "scope-0"
    ["scope-0" =: VDict []; "scope-1" =: VDict ["access_token" =: VStr "flow-token"]]
  = Some (VDict []).
Proof.
  exact (proj1 (proj2 (authorize_cell_keeps_cache first_run (VStr "scope-1")
           ["scope-0" =: VDict []]
           ["scope-0" =: VDict []; "scope-1" =: VDict ["access_token" =: VStr "flow-token"]]
           eq_refl))
         (KStr "scope-0") (VDict []) eq_refl).
Defined.

(** X9.  After the authorization cell has returned, the flow's scope is in
    the cache, so [get_flow_authorizer] does not fail on the scope: it
    builds the authorizer from the ["access_token"] of the scope's entry,
    and fails only if the entry has none. *)
Theorem authorized_scope_has_authorizer (h : host) (flow_scope : value)
    (saved_flow_scopes saved' : list (key * value)) :
  fst (Main.authorize_cell h flow_scope saved_flow_scopes) = Ret saved' →
  ∃ k entry,
    hash_key flow_scope = Ok k
    ∧ dict_get k saved' = Some entry
    ∧ ∀ flow_url client_id,
        Main.get_flow_authorizer flow_url flow_scope client_id saved' =
          (match getitem entry "access_token" with
           | Ok token => Ok (AccessTokenAuthorizer token)
           | Err e => Err e
           end, saved').
Proof.
  intros (k & Hk & Hcase)%authorize_cell_ret_inv.
  assert (∃ entry, dict_get k saved' = Some entry) as [entry Hentry].
  { destruct Hcase as [[[entry Hentry] ->]|(Hget & tr & entry & _ & _ & ->)]; [by eexists|].
    exists entry. by rewrite dict_get_app_fresh, Hget, key_eqb_refl. }
  exists k, entry. split; [done|]. split; [done|].
  intros flow_url client_id. unfold Main.get_flow_authorizer, subscript.
  by rewrite Hk, getitem_VDict, Hentry.
Qed.

Lemma authorized_scope_has_authorizer_witness :
  ∃ k entry,
    hash_key (VStr "scope-1") = Ok k
    ∧ dict_get k ["scope-1" =: VDict ["access_token" =: VStr "flow-token"]] = Some entry
    ∧ ∀ flow_url client_id,
        Main.get_flow_authorizer flow_url (VStr "scope-1") client_id
          ["scope-1" =: VDict ["access_token" =: VStr "flow-token"]] =
          (match getitem entry "access_token" with
           | Ok token => Ok (AccessTokenAuthorizer token)
           | Err e => Err e
           end, ["scope-1" =: VDict ["access_token" =: VStr "flow-token"]]).
Proof.
  exact (authorized_scope_has_authorizer first_run (VStr "scope-1") []
           ["scope-1" =: VDict ["access_token" =: VStr "flow-token"]] eq_refl).
Defined.

(** X10.  [get_flow_authorizer] returns an authorizer exactly when the
    scope is hashable, is a key of [saved_flow_scopes] and its entry has an
    ["access_token"], and the authorizer carries that token; on a scope that
    is not cached it fails with a [KeyError] naming the scope. *)
Theorem get_flow_authorizer_spec (flow_url flow_scope client_id : value)
    (saved_flow_scopes : list (key * value)) :
  (∀ authorizer,
     fst (Main.get_flow_authorizer flow_url flow_scope client_id saved_flow_scopes)
       = Ok authorizer ↔
     ∃ k entry token,
       hash_key flow_scope = Ok k
       ∧ dict_get k saved_flow_scopes = Some entry
       ∧ getitem entry "access_token" = Ok token
       ∧ authorizer = AccessTokenAuthorizer token)
  ∧ (∀ k, hash_key flow_scope = Ok k →
       dict_get k saved_flow_scopes = None →
       fst (Main.get_flow_authorizer flow_url flow_scope client_id saved_flow_scopes)
         = Err (KeyError k))
  ∧ (∀ e, hash_key flow_scope = Err e →
       fst (Main.get_flow_authorizer flow_url flow_scope client_id saved_flow_scopes)
         = Err e).
Proof.
  unfold Main.get_flow_authorizer, subscript. cbn [fst]. split; [|split].
  - intros authorizer. split.
    + destruct (hash_key flow_scope) as [k|e]; [|done]. rewrite getitem_VDict.
      destruct (dict_get k saved_flow_scopes) as [entry|] eqn:Hentry; [|done].
      destruct (getitem entry "access_token") as [token|e] eqn:Htoken; [|done].
      intros [= <-]. by exists k, entry, token.
    + intros (k & entry & token & -> & Hentry & Htoken & ->).
      by rewrite getitem_VDict, Hentry, Htoken.
  - intros k -> Hget. by rewrite getitem_VDict, Hget.
  - by intros e ->.
Qed.

Lemma get_flow_authorizer_spec_witness :
  fst (Main.get_flow_authorizer (VStr "url") (VStr "scope-2") (VStr "client")
         ["scope-1" =: VDict ["access_token" =: VStr "flow-token"]])
  = Err (KeyError "scope-2").
Proof.
  exact (proj1 (proj2 (get_flow_authorizer_spec (VStr "url") (VStr "scope-2") (VStr "client")
           ["scope-1" =: VDict ["access_token" =: VStr "flow-token"]]))
         (KStr "scope-2") eq_refl eq_refl).
Defined.

(** ** The cleanup cells *)

(** X11.  The cleanup cells contact the Transfer service only once they
    hold the access rule id and the Transfer token: when the final payload
    has no [access_id] for step [SetPermission] (the run did not get that
    far), or the bundle has no Transfer token, they end with the [KeyError]
    or [TypeError] of that lookup and make no call. *)
Theorem cleanup_needs_access_rule (h : host) (tokens flow_action : value)
    (destination_path : string) (e : exn) :
  (access_rule_id flow_action = Err e
   ∨ (∃ rule, access_rule_id flow_action = Ok rule)
     ∧ getpath tokens [KStr "transfer.api.globus.org"; KStr "access_token"] = Err e) →
  Main.cleanup_cell h tokens flow_action destination_path = (Raise e, [])
  ∧ Variant.cleanup_cell h tokens flow_action = (Raise e, []).
Proof.
  unfold Main.cleanup_cell, Variant.cleanup_cell.
  intros [->|[[rule ->] Htoken]]; [done|].
  cbn [lift bind ret app]. by rewrite Htoken.
Qed.

Lemma cleanup_needs_access_rule_witness :
  Main.cleanup_cell first_run (VDict []) (status_payload "FAILED") "/dir/"
    = (Raise (KeyError "SetPermission"), [])
  ∧ Variant.cleanup_cell first_run (VDict []) (status_payload "FAILED")
    = (Raise (KeyError "SetPermission"), []).
Proof.
  exact (cleanup_needs_access_rule first_run (VDict []) (status_payload "FAILED") "/dir/"
           (KeyError "SetPermission") (or_introl eq_refl)).
Defined.

(** X12.  The cleanup cells delete the rule the run recorded, on the
    destination endpoint, before anything else.  If that call raises, the
    main notebook's cell stops there and the directory is not deleted; if
    the Transfer service answers every call, the cell then fetches a
    submission id, activates the endpoint and submits one recursive delete
    of the destination path.  The variant's cell deletes the rule and
    nothing more. *)
Theorem cleanup_rule_then_directory (h : host) (tokens flow_action rule token : value)
    (destination_path : string) :
  access_rule_id flow_action = Ok rule →
  getpath tokens [KStr "transfer.api.globus.org"; KStr "access_token"] = Ok token →
  (∀ e, remote h DeleteEndpointAclRule 0 = Err e →
     Main.cleanup_cell h tokens flow_action destination_path =
       (Raise e,
        [Call DeleteEndpointAclRule [VStr Main.destination_endpoint; rule] (Err e)]))
  ∧ (∀ response submission submission_id activation submit_result task_id,
       remote h DeleteEndpointAclRule 0 = Ok response →
       remote h GetSubmissionId 0 = Ok submission →
       getitem submission "value" = Ok submission_id →
       remote h EndpointAutoactivate 0 = Ok activation →
       remote h SubmitDelete 0 = Ok submit_result →
       getitem submit_result "task_id" = Ok task_id →
       Main.cleanup_cell h tokens flow_action destination_path =
         (Ret tt,
          [Call DeleteEndpointAclRule [VStr Main.destination_endpoint; rule] (Ok response);
           Print (py_str h response);
           Call GetSubmissionId [] (Ok submission);
           Call EndpointAutoactivate [VStr Main.destination_endpoint] (Ok activation);
           Call SubmitDelete
             [VDict ["submission_id" =: submission_id;
                     "endpoint" =: VStr Main.destination_endpoint;
                     "label" =: VStr "Automation tutorial cleanup";
                     "recursive" =: VBool true;
                     "DATA" =: VList [VDict ["path" =: VStr destination_path]]]]
             (Ok submit_result);
           Print ("DELETE Task ID: " +:+ py_str h task_id)]))
  ∧ (∀ response,
       remote h DeleteEndpointAclRule 0 = Ok response →
       Variant.cleanup_cell h tokens flow_action =
         (Ret tt,
          [Call DeleteEndpointAclRule [VStr Variant.petrel_endpoint; rule] (Ok response);
           Print (py_str h response)])).
Proof.
  intros Hrule Htoken. unfold Main.cleanup_cell, Variant.cleanup_cell, call.
  rewrite Hrule. cbn [lift bind ret app]. rewrite Htoken. cbn [lift bind ret app].
  split; [|split].
  - by intros e ->.
  - intros response submission submission_id activation submit_result task_id
      -> -> Hvalue -> -> Htask.
    cbn [lift bind ret emit print app]. rewrite Hvalue.
    cbn [lift bind ret emit print app]. by rewrite Htask.
  - by intros response ->.
Qed.

Lemma cleanup_rule_then_directory_witness :
  called (snd (Main.cleanup_cell first_run mock_tokens succeeded_payload "/dir/"))
    = [DeleteEndpointAclRule; GetSubmissionId; EndpointAutoactivate; SubmitDelete]
  ∧ called (snd (Main.cleanup_cell rule_locked mock_tokens succeeded_payload "/dir/"))
    = [DeleteEndpointAclRule].
Proof.
  pose proof (cleanup_rule_then_directory first_run mock_tokens succeeded_payload
                (VInt 42) (VStr "transfer-token") "/dir/" eq_refl eq_refl)
    as (_ & Hall & _).
  pose proof (cleanup_rule_then_directory rule_locked mock_tokens succeeded_payload
                (VInt 42) (VStr "transfer-token") "/dir/" eq_refl eq_refl)
    as (Hfail & _).
  split.
  - exact (f_equal (fun m => called (snd m))
             (Hall _ _ _ _ _ _ eq_refl eq_refl eq_refl eq_refl eq_refl eq_refl)).
  - exact (f_equal (fun m => called (snd m)) (Hfail _ eq_refl)).
Defined.

(** ** When a computation returns *)

Lemma fst_bind_Ret {A B} (m : M A) (k : A → M B) (b : B) :
  fst (bind m k) = Ret b ↔ ∃ a, fst m = Ret a ∧ fst (k a) = Ret b.
Proof.
  rewrite fst_bind. destruct (fst m) as [a|e|]; [|by split; [|intros (? & ? & _)]..].
  split; [by exists a|]. by intros (a' & [= <-] & ?).
Qed.

Lemma fst_lift_Ret {A} (r : result A) (a : A) : fst (lift r) = Ret a ↔ r = Ok a.
Proof. destruct r; cbn; split; congruence. Qed.

Lemma fst_ret_Ret {A} (a b : A) : fst (ret a) = Ret b ↔ a = b.
Proof. cbn. split; congruence. Qed.

Lemma fst_print_Ret line u : fst (print line) = Ret u ↔ True.
Proof. by destruct u. Qed.

Lemma fst_call_Ret h op n args v : fst (call h op n args) = Ret v ↔ remote h op n = Ok v.
Proof.
  unfold call. rewrite fst_bind_Ret. setoid_rewrite fst_lift_Ret. split.
  - by intros (_ & _ & ?).
  - intros ?. by exists tt.
Qed.

(** Turns "the cell returns [x]" into the conditions on its steps. *)
Ltac returns_iff :=
  repeat first
    [ setoid_rewrite fst_bind_Ret
    | setoid_rewrite fst_lift_Ret
    | setoid_rewrite fst_ret_Ret
    | setoid_rewrite fst_print_Ret
    | setoid_rewrite fst_call_Ret ];
  split; intros;
  repeat match goal with
         | H : ex _ |- _ => destruct H
         | H : _ ∧ _ |- _ => destruct H
         end;
  simplify_eq;
  repeat first [eassumption | reflexivity | eexists | split].

(** ** The cells that set a run up *)

(** X13.  Token loading is silent and all-or-nothing: it prints nothing
    and calls no service, and it yields tokens exactly when [GLOBUS_DATA] is
    set, decodes and unpickles, and the bundle has a ["tokens"] entry; the
    tokens are that entry. *)
Theorem load_tokens_returns_iff (h : host) :
  snd (load_tokens h) = []
  ∧ ∀ tokens,
      fst (load_tokens h) = Ret tokens ↔
      ∃ data raw bundle,
        os_getenv h "GLOBUS_DATA" = Some data
        ∧ b64decode h data = Ok raw
        ∧ pickle_loads h raw = Ok bundle
        ∧ getitem bundle "tokens" = Ok tokens.
Proof.
  unfold load_tokens. destruct (os_getenv h "GLOBUS_DATA") as [data|].
  - destruct (b64decode h data) as [raw|e] eqn:Hraw; cbn [lift bind ret raise app fst snd].
    + destruct (pickle_loads h raw) as [bundle|e] eqn:Hbundle;
        cbn [lift bind ret raise app fst snd].
      * destruct (getitem bundle "tokens") as [t|e] eqn:Ht;
          cbn [lift bind ret raise app fst snd]; (split; [done|]); intros tokens; split.
        -- intros [= <-]. by exists data, raw, bundle.
        -- intros (? & ? & ? & [= <-] & ? & ? & ?). congruence.
        -- done.
        -- intros (? & ? & ? & [= <-] & ? & ? & ?). congruence.
      * split; [done|]. intros tokens. split; [done|].
        intros (? & ? & ? & [= <-] & ? & ? & ?). congruence.
    + split; [done|]. intros tokens. split; [done|].
      intros (? & ? & ? & [= <-] & ? & ? & ?). congruence.
  - split; [done|]. intros tokens. split; [done|]. by intros (? & ? & ? & ? & _).
Qed.

Lemma load_tokens_returns_iff_witness :
  fst (load_tokens first_run) = Ret mock_tokens.
Proof.
  exact (proj2 (proj2 (load_tokens_returns_iff first_run) mock_tokens)
           (ex_intro _ "gASV" (ex_intro _ "gASV" (ex_intro _ mock_bundle
              (conj eq_refl (conj eq_refl (conj eq_refl eq_refl))))))).
Defined.

(** X14.  The identity lookup succeeds exactly when the bundle has a token
    for the Auth service and the user info that the service returns has
    ["sub"], ["preferred_username"] and ["email"]; the identity id is the
    ["sub"].  In the variant the lookup shares a cell with the token
    loading.  Without the Auth token no call is made. *)
Theorem identity_cell_returns_iff (h : host) (tokens primary_identity identity_id : value) :
  (fst (Main.identity_cell h tokens) = Ret (primary_identity, identity_id) ↔
     identity_known h tokens primary_identity identity_id)
  ∧ (fst (Variant.tokens_cell h) = Ret (tokens, primary_identity, identity_id) ↔
       fst (load_tokens h) = Ret tokens
       ∧ identity_known h tokens primary_identity identity_id)
  ∧ (∀ e, getpath tokens [KStr "auth.globus.org"; KStr "access_token"] = Err e →
       Main.identity_cell h tokens = (Raise e, [])).
Proof.
  split; [|split].
  - unfold Main.identity_cell, identity_known. returns_iff.
  - unfold Variant.tokens_cell, identity_known. returns_iff.
  - intros e He. unfold Main.identity_cell. by rewrite He.
Qed.

Lemma identity_cell_returns_iff_witness :
  fst (Main.identity_cell first_run mock_tokens)
  = Ret (VDict ["sub" =: VStr "id-1";
                "preferred_username" =: VStr "user";
                "email" =: VStr "user@example.org"],
         VStr "id-1").
Proof.
  refine (proj2 (proj1 (identity_cell_returns_iff first_run mock_tokens _ _)) _).
  repeat split; try (eexists; reflexivity); reflexivity.
Defined.

(** X15.  The deploy cell registers the notebook's flow definition under
    the title [Tutorial-Flow-] followed by a fresh UUID, in one call, and
    returns the ["id"] and the ["globus_auth_scope"] of the service's
    answer; it returns exactly when the answer has both. *)
Theorem deploy_cell_returns_iff (h : host) (flow_id flow_scope : value) :
  (fst (Main.deploy_cell h) = Ret (flow_id, flow_scope) ↔
     ∃ flow, remote h DeployFlow 0 = Ok flow
             ∧ getitem flow "id" = Ok flow_id
             ∧ getitem flow "globus_auth_scope" = Ok flow_scope)
  ∧ (fst (Variant.deploy_cell h) = Ret (flow_id, flow_scope) ↔
       ∃ flow, remote h DeployFlow 0 = Ok flow
               ∧ getitem flow "id" = Ok flow_id
               ∧ getitem flow "globus_auth_scope" = Ok flow_scope)
  ∧ (∃ tr, snd (Main.deploy_cell h) =
             Call DeployFlow [Main.flow_definition; VStr ("Tutorial-Flow-" +:+ uuid4 h)]
               (remote h DeployFlow 0) :: tr
           ∧ called tr = [])
  ∧ (∃ tr, snd (Variant.deploy_cell h) =
             Call DeployFlow [Variant.flow_definition; VStr ("Tutorial-Flow-" +:+ uuid4 h)]
               (remote h DeployFlow 0) :: tr
           ∧ called tr = []).
Proof.
  split; [|split; [|split]].
  - unfold Main.deploy_cell. returns_iff.
  - unfold Variant.deploy_cell. returns_iff.
  - unfold Main.deploy_cell, call.
    destruct (remote h DeployFlow 0) as [flow|e]; [|by eexists].
    cbn [lift bind ret emit print app].
    destruct (getitem flow "id"); [|by eexists]. cbn [lift bind ret emit print app].
    destruct (getitem flow "globus_auth_scope"); by eexists.
  - unfold Variant.deploy_cell, call.
    destruct (remote h DeployFlow 0) as [flow|e]; [|by eexists].
    cbn [lift bind ret emit print app].
    destruct (getitem flow "id"); [|by eexists]. cbn [lift bind ret emit print app].
    destruct (getitem flow "globus_auth_scope"); by eexists.
Qed.

Lemma deploy_cell_returns_iff_witness :
  fst (Main.deploy_cell first_run) = Ret (VStr "flow-1", VStr "scope-1").
Proof.
  refine (proj2 (proj1 (deploy_cell_returns_iff first_run _ _)) _).
  eexists. repeat split; reflexivity.
Defined.
